(** * Backlinks verifier: fetch, match and batch pipeline of [main.py]

    A shallow embedding of [BacklinksVerifier] (fetch_page_content,
    verify_backlink, verify_multiple_backlinks) and of the summary computed by
    [process_backlinks] / [verify_backlinks_sync], followed by the properties
    of the specification settled on it.

    Modelling conventions.
    - A Python [str] is a [string] over an alphabet of 256 characters: the
      ASCII code points and, beyond them, four code points that the case
      functions of Python treat in ways that matter to this code (U+0130,
      U+0307, U+2102, U+212A), the rest standing for private-use code points,
      which have no case and are not blank.  On this alphabet [lower],
      [upper], [title] and the whitespace functions are those of Python.
    - Python [int] is [Z]; [find] returns [-1] when nothing is found and
      slices follow Python's clamping rules.
    - Python [float] is IEEE binary64, through [SpecFloat] at precision 53.
    - The network is an oracle giving, for a URL and an attempt number, what
      the attempt observes.  Sleeps, headers and logging do not influence any
      returned value and are left out. *)

From Stdlib Require Import ZArith List Bool Lia Permutation.
From Stdlib Require Import Strings.String Strings.Ascii Numbers.DecimalString.
From Stdlib Require Import Floats.SpecFloat.
Import ListNotations.

Local Open Scope string_scope.
Local Open Scope Z_scope.

(** ** Python string primitives *)

Module PyStr.

Definition code (c : ascii) : nat := nat_of_ascii c.

(** The characters beyond ASCII that have a case. *)
Definition capital_i_dot : ascii := ascii_of_nat 128.
Definition combining_dot : ascii := ascii_of_nat 129.
Definition double_struck_c : ascii := ascii_of_nat 130.
Definition kelvin_sign : ascii := ascii_of_nat 131.

(** The Unicode code point that a character stands for: U+0130 is the capital
    I with dot above, whose lower-case form has two characters; U+0307 is the
    combining dot above; U+2102 is the double-struck capital C, an upper-case
    letter without lower-case form; U+212A is the Kelvin sign, whose
    lower-case form is the ASCII k. *)
Definition code_point (c : ascii) : N :=
  if Nat.ltb (code c) 128 then N.of_nat (code c)
  else if Nat.eqb (code c) 128 then 304%N
  else if Nat.eqb (code c) 129 then 775%N
  else if Nat.eqb (code c) 130 then 8450%N
  else if Nat.eqb (code c) 131 then 8490%N
  else (57344 + N.of_nat (code c))%N.

(** The ASCII capitals. *)
Definition is_upper (c : ascii) : bool :=
  (Nat.leb 65 (code c) && Nat.leb (code c) 90)%bool.

Definition is_lower (c : ascii) : bool :=
  (Nat.leb 97 (code c) && Nat.leb (code c) 122)%bool.

(** [c.isupper()]: the upper-case letters of the alphabet. *)
Definition is_uppercase (c : ascii) : bool :=
  (is_upper c || Nat.eqb (code c) 128 || Nat.eqb (code c) 130
   || Nat.eqb (code c) 131)%bool.

Definition is_cased (c : ascii) : bool :=
  (is_uppercase c || is_lower c)%bool.

(** [str.isspace] on one ASCII character. *)
Definition is_space (c : ascii) : bool :=
  ((Nat.leb 9 (code c) && Nat.leb (code c) 13)
   || (Nat.leb 28 (code c) && Nat.leb (code c) 32))%bool.

(** The lower-case form of a character when it is one character. *)
Definition lower_char (c : ascii) : ascii :=
  if is_upper c then ascii_of_nat (code c + 32)
  else if Nat.eqb (code c) 131 then "k"%char
  else c.

(** [c.lower()]: two characters for U+0130, one otherwise. *)
Definition lower_full (c : ascii) : string :=
  if Nat.eqb (code c) 128 then String "i" (String combining_dot EmptyString)
  else String (lower_char c) EmptyString.

Definition upper_char (c : ascii) : ascii :=
  if is_lower c then ascii_of_nat (code c - 32) else c.

(** [s.lower()] *)
Fixpoint lower (s : string) : string :=
  match s with
  | EmptyString => EmptyString
  | String c s' => lower_full c ++ lower s'
  end.

(** [s.upper()] *)
Fixpoint upper (s : string) : string :=
  match s with
  | EmptyString => EmptyString
  | String c s' => String (upper_char c) (upper s')
  end.

(** [s.title()]: a character is lower-cased when the previous character is
    cased, and put in title case, which on this alphabet is upper case,
    otherwise. *)
Fixpoint title_from (prev_cased : bool) (s : string) : string :=
  match s with
  | EmptyString => EmptyString
  | String c s' =>
      (if prev_cased then lower_full c else String (upper_char c) EmptyString)
      ++ title_from (is_cased c) s'
  end.

Definition title (s : string) : string := title_from false s.

(** [len(s)] *)
Definition len (s : string) : Z := Z.of_nat (String.length s).

(** [s.startswith(p)] *)
Definition startswith (s p : string) : bool := String.prefix p s.

(** [v in s] *)
Fixpoint str_in (v s : string) : bool :=
  (String.prefix v s
   || match s with
      | EmptyString => false
      | String _ s' => str_in v s'
      end)%bool.

(** [s.find(v)]: lowest index at which [v] occurs, [-1] when it does not. *)
Fixpoint find_from (i : Z) (v s : string) : Z :=
  if String.prefix v s then i
  else match s with
       | EmptyString => -1
       | String _ s' => find_from (i + 1) v s'
       end.

Definition find (s v : string) : Z := find_from 0 v s.

Fixpoint drop (n : nat) (s : string) : string :=
  match n, s with
  | O, _ => s
  | S _, EmptyString => EmptyString
  | S n', String _ s' => drop n' s'
  end.

Fixpoint take (n : nat) (s : string) : string :=
  match n, s with
  | O, _ => EmptyString
  | S _, EmptyString => EmptyString
  | S n', String c s' => String c (take n' s')
  end.

(** A slice bound as Python normalises it: negative bounds count from the
    end, and everything is clamped to [0, len s]. *)
Definition slice_bound (s : string) (i : Z) : Z :=
  if i <? 0 then Z.max 0 (i + len s) else Z.min i (len s).

(** [s[a:b]] *)
Definition slice (s : string) (a b : Z) : string :=
  let a' := slice_bound s a in
  let b' := slice_bound s b in
  take (Z.to_nat (b' - a')) (drop (Z.to_nat a') s).

(** [s[:b]] *)
Definition slice_to (s : string) (b : Z) : string := slice s 0 b.

(** [s.replace(old, '')] for a non-empty [old]: every occurrence, found left
    to right without overlap, is deleted.  [skip] counts the characters of
    the occurrence being deleted that are still to be dropped. *)
Fixpoint remove_all_from (skip : nat) (old s : string) : string :=
  match s with
  | EmptyString => EmptyString
  | String c s' =>
      match skip with
      | S k => remove_all_from k old s'
      | O =>
          if String.prefix old s
          then remove_all_from (Nat.pred (String.length old)) old s'
          else String c (remove_all_from O old s')
      end
  end.

Definition remove_all (s old : string) : string :=
  match old with
  | EmptyString => s
  | _ => remove_all_from O old s
  end.

(** [s.rstrip(c)] for a one-character argument. *)
Fixpoint rstrip_char (c : ascii) (s : string) : string :=
  match s with
  | EmptyString => EmptyString
  | String a s' =>
      match rstrip_char c s' with
      | EmptyString => if Ascii.eqb a c then EmptyString else String a EmptyString
      | r => String a r
      end
  end.

(** [s.split(sep)] for a one-character separator; never the empty list. *)
Fixpoint split_char (sep : ascii) (s : string) : list string :=
  match s with
  | EmptyString => [EmptyString]
  | String a s' =>
      if Ascii.eqb a sep then EmptyString :: split_char sep s'
      else match split_char sep s' with
           | [] => [String a EmptyString]
           | w :: ws => String a w :: ws
           end
  end.

(** [xs[0]] of a list of strings that is known not to be empty. *)
Definition first (xs : list string) : string := hd EmptyString xs.

(** [s.split()]: the maximal runs of non-blank characters. *)
Fixpoint split_ws (s : string) : list string :=
  match s with
  | EmptyString => []
  | String a s' =>
      if is_space a then split_ws s'
      else match s' with
           | EmptyString => [String a EmptyString]
           | String b _ =>
               if is_space b then String a EmptyString :: split_ws s'
               else match split_ws s' with
                    | [] => [String a EmptyString]
                    | w :: ws => String a w :: ws
                    end
           end
  end.

(** [sep.join(xs)] *)
Fixpoint join (sep : string) (xs : list string) : string :=
  match xs with
  | [] => EmptyString
  | [x] => x
  | x :: rest => x ++ sep ++ join sep rest
  end.

(** [' '.join(s.split())] *)
Definition collapse_ws (s : string) : string := join " " (split_ws s).

Fixpoint lstrip (s : string) : string :=
  match s with
  | EmptyString => EmptyString
  | String a s' => if is_space a then lstrip s' else s
  end.

Fixpoint rstrip (s : string) : string :=
  match s with
  | EmptyString => EmptyString
  | String a s' =>
      match rstrip s' with
      | EmptyString => if is_space a then EmptyString else String a EmptyString
      | r => String a r
      end
  end.

(** [s.strip()] *)
Definition strip (s : string) : string := rstrip (lstrip s).

(** Truth value of a string: empty is false. *)
Definition truthy (s : string) : bool :=
  match s with EmptyString => false | _ => true end.

(** Index of the first [">"] of [s], if any. *)
Fixpoint index_gt (s : string) : option nat :=
  match s with
  | EmptyString => None
  | String a s' =>
      if Ascii.eqb a ">" then Some O
      else match index_gt s' with
           | Some k => Some (S k)
           | None => None
           end
  end.

(** [re.sub(r'<[^>]+>', ' ', s)]: at a ["<"] followed by at least one
    character other than [">"] and, later, a [">"], everything up to and
    including the first such [">"] becomes one blank; matches do not overlap.
    [skip] counts characters of the current match still to be dropped. *)
Fixpoint sub_tags_from (skip : nat) (s : string) : string :=
  match s with
  | EmptyString => EmptyString
  | String a s' =>
      match skip with
      | S k => sub_tags_from k s'
      | O =>
          if Ascii.eqb a "<" then
            match index_gt s' with
            | Some (S k) => String " " (sub_tags_from (S (S k)) s')
            | _ => String a (sub_tags_from O s')
            end
          else String a (sub_tags_from O s')
      end
  end.

Definition sub_tags (s : string) : string := sub_tags_from O s.

(** [str(n)] for an integer. *)
Definition str_of_Z (n : Z) : string := NilZero.string_of_int (Z.to_int n).

End PyStr.

Import PyStr.

(** ** Data model *)

(** The dictionary returned by [fetch_page_content].  It has exactly two
    shapes: the success one carries ['text_content'], ['html_content'],
    ['status_code'], ['url'] and sometimes ['warning']; the failure one
    carries ['error'], ['status_code'] (possibly [None]) and ['url']. *)
Inductive FetchOutcome : Type :=
| FetchOk (text_content html_content : string) (status_code : Z)
          (final_url : string) (warn : option string)
| FetchFail (err : string) (status_code : option Z) (request_url : string).

(** [result['success']] *)
Definition success (o : FetchOutcome) : bool :=
  match o with FetchOk _ _ _ _ _ => true | FetchFail _ _ _ => false end.

(** [result['error']], present on failures only. *)
Definition fetch_error (o : FetchOutcome) : option string :=
  match o with FetchOk _ _ _ _ _ => None | FetchFail e _ _ => Some e end.

(** [result.get('status_code')] *)
Definition fetch_status (o : FetchOutcome) : option Z :=
  match o with FetchOk _ _ sc _ _ => Some sc | FetchFail _ sc _ => sc end.

(** [class BacklinkResult(BaseModel)] *)
Record BacklinkResult : Type := mkResult {
  url : string;
  search_term : string;
  verified : bool;
  error : option string;
  status_code : option Z;
  found_in : option string;
  context : option string;
  found_variation : option string;
  warning : option string
}.

(** The local variables of [verify_backlink] that the search steps update. *)
Record ScanState : Type := mkScan {
  found_in_text : bool;
  found_in_html : bool;
  cur_context : option string;
  cur_variation : option string
}.

Definition scan_init : ScanState := mkScan false false None None.

(** ** Match engine: [verify_backlink] after the fetch *)

(** [list(dict.fromkeys(xs))]: duplicates removed, first occurrences kept in
    order.  [seen] holds the keys already inserted. *)
Fixpoint fromkeys_from (seen xs : list string) : list string :=
  match xs with
  | [] => []
  | x :: rest =>
      if existsb (String.eqb x) seen then fromkeys_from seen rest
      else x :: fromkeys_from (x :: seen) rest
  end.

Definition dict_fromkeys (xs : list string) : list string := fromkeys_from [] xs.

(** [xs.extend(ys)] *)
Definition extend (xs ys : list string) : list string := List.app xs ys.

Definition url_indicators : list string :=
  ["http"; "www."; ".com"; ".in"; ".org"; ".net"].

(** The [search_variations] list built at the top of [verify_backlink]. *)
Definition search_variations (search_term : string) (case_sensitive : bool)
  : list string :=
  if case_sensitive then [search_term]
  else
    let base_term := lower search_term in
    let vs := [base_term] in
    let vs :=
      if existsb (fun indicator => str_in indicator base_term) url_indicators
      then
        let clean_url := base_term in
        let clean_url := remove_all (remove_all clean_url "https://") "http://" in
        let clean_url := remove_all clean_url "www." in
        let clean_url := rstrip_char "/" clean_url in
        let vs := extend vs [
          base_term;
          upper search_term;
          title search_term;
          clean_url;
          "www." ++ clean_url;
          "https://" ++ clean_url;
          "http://" ++ clean_url;
          "https://www." ++ clean_url;
          "http://www." ++ clean_url;
          clean_url ++ "/";
          "www." ++ clean_url ++ "/";
          "https://" ++ clean_url ++ "/";
          "http://" ++ clean_url ++ "/";
          "https://www." ++ clean_url ++ "/";
          "http://www." ++ clean_url ++ "/" ] in
        let vs :=
          if str_in "." clean_url then
            let domain_parts := split_char "." (first (split_char "/" clean_url)) in
            if 2 <=? Z.of_nat (List.length domain_parts) then
              let brand_name := first domain_parts in
              extend vs [ brand_name; upper brand_name; title brand_name ]
            else vs
          else vs in
        let base_domain := first (split_char "/" clean_url) in
        extend vs [
          base_domain;
          "www." ++ base_domain;
          "https://" ++ base_domain;
          "https://www." ++ base_domain ]
      else
        extend vs [
          base_term ++ ".com";
          "www." ++ base_term ++ ".com";
          "https://" ++ base_term ++ ".com";
          "https://www." ++ base_term ++ ".com";
          "http://" ++ base_term ++ ".com";
          "http://www." ++ base_term ++ ".com";
          upper base_term;
          title base_term ] in
    dict_fromkeys vs.

(** Context assigned by the text scan once [variation] is known to occur;
    [context] is the value the variable held before. *)
Definition text_context (text_content variation : string)
           (context : option string) : option string :=
  let index := find text_content variation in
  if negb (index =? -1) then
    let start := Z.max 0 (index - 200) in
    let stop := Z.min (len text_content) (index + len variation + 200) in
    let raw_context := slice text_content start stop in
    let context := collapse_ws raw_context in
    if 50 <? len context then
      let term_pos := find (lower context) (lower variation) in
      if 150 <? term_pos then
        Some ("..." ++ slice context (term_pos - 100) (term_pos + 200) ++ "...")
      else Some context
    else Some context
  else context.

(** First loop: [for variation in search_variations: if variation in text_content]. *)
Fixpoint scan_text (variations : list string) (text_content : string)
         (st : ScanState) : ScanState :=
  match variations with
  | [] => st
  | variation :: rest =>
      if str_in variation text_content then
        mkScan true (found_in_html st)
               (text_context text_content variation (cur_context st))
               (Some variation)
      else scan_text rest text_content st
  end.

(** Context assigned by the HTML scan once [variation] is known to occur. *)
Definition html_context (html_content variation : string) : string :=
  let index := find html_content variation in
  if negb (index =? -1) then
    let start := Z.max 0 (index - 150) in
    let stop := Z.min (len html_content) (index + len variation + 150) in
    let html_context := slice html_content start stop in
    let clean_context := sub_tags html_context in
    let clean_context := collapse_ws clean_context in
    if truthy (strip clean_context) then "HTML: " ++ clean_context
    else "Found in HTML source code"
  else "Found in HTML attributes or tags".

(** Second loop, run when [not found_in_text and search_in_html]. *)
Fixpoint scan_html_loop (variations : list string) (html_content : string)
         (st : ScanState) : ScanState :=
  match variations with
  | [] => st
  | variation :: rest =>
      if str_in variation html_content then
        mkScan (found_in_text st) true
               (Some (html_context html_content variation))
               (Some variation)
      else scan_html_loop rest html_content st
  end.

Definition scan_html (search_in_html : bool) (variations : list string)
           (html_content : string) (st : ScanState) : ScanState :=
  if (negb (found_in_text st) && search_in_html)%bool
  then scan_html_loop variations html_content st
  else st.

(** Third loop: the variations against the lower-cased final URL. *)
Fixpoint scan_url_loop (variations : list string) (current_url : string)
         (st : ScanState) : ScanState :=
  match variations with
  | [] => st
  | variation :: rest =>
      if str_in variation current_url then
        mkScan (found_in_text st) true
               (Some ("Found in page URL: " ++ current_url))
               (Some variation)
      else scan_url_loop rest current_url st
  end.

Definition scan_url (variations : list string) (result_url : string)
           (st : ScanState) : ScanState :=
  if (negb (found_in_text st) && negb (found_in_html st))%bool
  then scan_url_loop variations (lower result_url) st
  else st.

(** [search_domain] of the last check. *)
Definition search_domain (search_term : string) : string :=
  let search_domain := lower search_term in
  if str_in "http" search_domain then
    first (split_char "/"
             (remove_all (remove_all (remove_all search_domain "https://")
                                     "http://") "www."))
  else search_domain.

(** [search_domain.split('.')[0]] *)
Definition domain_label (search_term : string) : string :=
  first (split_char "." (search_domain search_term)).

(** Last check: the first label of the domain anywhere in the markup. *)
Definition scan_links (search_in_html : bool) (search_term html_content : string)
           (st : ScanState) : ScanState :=
  if (negb (found_in_text st) && negb (found_in_html st) && search_in_html)%bool
  then
    if (str_in (domain_label search_term) html_content
        && (3 <? len (domain_label search_term)))%bool
    then mkScan (found_in_text st) true
                (Some "Domain found in page links")
                (Some (search_domain search_term))
    else st
  else st.

(** The four search steps in sequence. *)
Definition run_search (variations : list string)
           (text_content html_content result_url search_term : string)
           (search_in_html : bool) : ScanState :=
  scan_links search_in_html search_term html_content
    (scan_url variations result_url
       (scan_html search_in_html variations html_content
          (scan_text variations text_content scan_init))).

(** [context[:500] if context else None] *)
Definition limit_context (context : option string) : option string :=
  match context with
  | Some c => if truthy c then Some (slice_to c 500) else None
  | None => None
  end.

(** [verify_backlink] from the point where [result] has been fetched. *)
Definition verify_fetched (result : FetchOutcome) (url search_term : string)
           (search_in_html case_sensitive : bool) : BacklinkResult :=
  match result with
  | FetchFail err sc _ =>
      mkResult url search_term false (Some err) sc None None None None
  | FetchOk text_content html_content sc result_url warn =>
      let variations := search_variations search_term case_sensitive in
      let st := run_search variations text_content html_content result_url
                           search_term search_in_html in
      let verified := (found_in_text st || found_in_html st)%bool in
      let found_in :=
        if found_in_text st then Some "Page Text"
        else if found_in_html st then Some "HTML/Links" else None in
      mkResult url search_term verified None (Some sc) found_in
               (limit_context (cur_context st)) (cur_variation st) warn
  end.

(** ** Page fetcher: [fetch_page_content] *)

(** What the code reads from a [requests.Response].  [resp_text] is the
    body decoded with the chosen encoding, [None] when decoding raises;
    [soup_text] and [soup_html] are what BeautifulSoup gives for the body
    after the script and style elements are removed
    ([get_text(separator=' ', strip=True)] and [str(soup)]). *)
Record Response : Type := mkResponse {
  resp_status : Z;
  resp_content : string;
  resp_text : option string;
  resp_url : string;
  resp_reason : string;
  soup_text : string;
  soup_html : string
}.

(** What one pass through the [try] block observes. *)
Inductive Attempt : Type :=
| Responded (r : Response)
| TimedOut
| RequestFailed (msg : string) (resp : option Response)
| Crashed (msg : string).

(** [TimedOut] is [requests.exceptions.Timeout]; [RequestFailed msg resp] is
    any other [RequestException] with [str(e) = msg] and [e.response = resp];
    [Crashed] is an exception of any other class. *)
Definition Network : Type := string -> Z -> Attempt.

(** The fields of [self] that reach a returned value. *)
Record BacklinksVerifier : Type := mkVerifier {
  timeout : Z;
  use_browser : bool
}.

(** A call either returns or raises. *)
Inductive Outcome (A : Type) : Type :=
| Returned (a : A)
| Raised (msg : string).

Arguments Returned {A} a.
Arguments Raised {A} msg.

(** One iteration of the retry loop either goes on to the next attempt,
    returns from the function or lets an exception through. *)
Inductive Step : Type :=
| Continue
| Return (o : FetchOutcome)
| Raise (msg : string).

Definition normalize_url (url : string) : string :=
  if (startswith url "http://" || startswith url "https://")%bool
  then url else "https://" ++ url.

(** [bool(response)], which is [response.ok]: no 4xx or 5xx status. *)
Definition resp_ok (r : Response) : bool :=
  negb ((400 <=? resp_status r) && (resp_status r <? 600))%bool.

(** The message of the [HTTPError] that [raise_for_status] raises, if any. *)
Definition raise_for_status (r : Response) : option string :=
  if ((400 <=? resp_status r) && (resp_status r <? 500))%bool then
    Some (str_of_Z (resp_status r) ++ " Client Error: " ++ resp_reason r
          ++ " for url: " ++ resp_url r)
  else if ((500 <=? resp_status r) && (resp_status r <? 600))%bool then
    Some (str_of_Z (resp_status r) ++ " Server Error: " ++ resp_reason r
          ++ " for url: " ++ resp_url r)
  else None.

(** The [except requests.exceptions.RequestException as e] handler. *)
Definition on_request_exception (url : string) (max_retries attempt : Z)
           (msg : string) (resp : option Response) : Step :=
  if attempt <? max_retries - 1 then Continue
  else Return (FetchFail msg
                 (match resp with
                  | Some r => if resp_ok r then Some (resp_status r) else None
                  | None => None
                  end)
                 url).

(** [response.text]: for an empty body requests gives the empty string
    without decoding anything, otherwise the decoded body. *)
Definition response_text (r : Response) : option string :=
  if truthy (resp_content r) then resp_text r else Some EmptyString.

(** The early return of the 403 branch, when there is one. *)
Definition forbidden_content (r : Response) : option FetchOutcome :=
  if truthy (resp_content r) then
    match response_text r with
    | Some text =>
        let content_text := lower text in
        if 100 <? len content_text then
          Some (FetchOk content_text content_text 403 (resp_url r)
                        (Some "403 Forbidden but content was accessible"))
        else None
    | None => None
    end
  else None.

(** Body of [for attempt in range(max_retries)]; [url] is normalised. *)
Definition fetch_attempt (self : BacklinksVerifier) (url : string)
           (max_retries attempt : Z) (ev : Attempt) : Step :=
  match ev with
  | Responded r =>
      if resp_status r =? 403 then
        match forbidden_content r with
        | Some o => Return o
        | None =>
            if attempt <? max_retries - 1 then Continue
            else Return (FetchFail "403 Forbidden - Access denied" (Some 403) url)
        end
      else if resp_status r =? 429 then
        if attempt <? max_retries - 1 then Continue
        else Return (FetchFail "429 Too Many Requests - Rate limited"
                               (Some 429) url)
      else
        match raise_for_status r with
        | Some msg => on_request_exception url max_retries attempt msg (Some r)
        | None =>
            Return (FetchOk (lower (soup_text r)) (lower (soup_html r))
                            (resp_status r) (resp_url r) None)
        end
  | TimedOut =>
      if attempt <? max_retries - 1 then Continue
      else Return (FetchFail ("Request timeout after " ++ str_of_Z (timeout self)
                              ++ " seconds") None url)
  | RequestFailed msg resp =>
      on_request_exception url max_retries attempt msg resp
  | Crashed msg => Raise msg
  end.

(** The loop from [attempt] on, [remaining] iterations being left. *)
Fixpoint fetch_loop (self : BacklinksVerifier) (net : Network) (url : string)
         (max_retries : Z) (remaining : nat) (attempt : Z)
  : Outcome FetchOutcome :=
  match remaining with
  | O =>
      Returned (FetchFail ("Failed after " ++ str_of_Z max_retries ++ " attempts")
                          None url)
  | S remaining' =>
      match fetch_attempt self url max_retries attempt (net url attempt) with
      | Continue => fetch_loop self net url max_retries remaining' (attempt + 1)
      | Return o => Returned o
      | Raise msg => Raised msg
      end
  end.

Definition fetch_page_content (self : BacklinksVerifier) (net : Network)
           (url : string) (max_retries : Z) : Outcome FetchOutcome :=
  let url := normalize_url url in
  fetch_loop self net url max_retries (Z.to_nat max_retries) 0.

(** [verify_backlink]: fetch with the default [max_retries=3], then match. *)
Definition verify_backlink (self : BacklinksVerifier) (net : Network)
           (url search_term : string) (search_in_html case_sensitive : bool)
  : Outcome BacklinkResult :=
  match fetch_page_content self net url 3 with
  | Returned result =>
      Returned (verify_fetched result url search_term search_in_html case_sensitive)
  | Raised msg => Raised msg
  end.

(** ** Batch orchestrator: [verify_multiple_backlinks] *)

(** The result appended by the [except Exception as e] handlers. *)
Definition processing_error (url search_term msg : string) : BacklinkResult :=
  mkResult url search_term false (Some ("Processing error: " ++ msg))
           None None None None None.

(** The [try]/[except] around one URL, already stripped. *)
Definition checked_backlink (self : BacklinksVerifier) (net : Network)
           (search_term : string) (search_in_html case_sensitive : bool)
           (url : string) : BacklinkResult :=
  match verify_backlink self net url search_term search_in_html case_sensitive with
  | Returned result => result
  | Raised msg => processing_error url search_term msg
  end.

(** The single-threaded loop, [results] being the list built so far. *)
Fixpoint sequential_loop (self : BacklinksVerifier) (net : Network)
         (search_term : string) (search_in_html case_sensitive : bool)
         (urls : list string) (results : list BacklinkResult)
  : list BacklinkResult :=
  match urls with
  | [] => results
  | url :: rest =>
      if truthy (strip url) then
        sequential_loop self net search_term search_in_html case_sensitive rest
          (results ++ [checked_backlink self net search_term search_in_html
                         case_sensitive (strip url)])%list
      else
        sequential_loop self net search_term search_in_html case_sensitive rest
          results
  end.

(** The futures submitted to the pool, each standing for its stripped URL:
    [{executor.submit(...): url.strip() for url in urls if url.strip()}]. *)
Definition submitted (urls : list string) : list string :=
  List.map strip (List.filter (fun url => truthy (strip url)) urls).

(** [as_completed]: the futures in the order in which they finish, [order]
    listing their positions. *)
Definition as_completed {A : Type} (order : list nat) (futures : list A) : list A :=
  List.flat_map (fun i => match List.nth_error futures i with
                          | Some f => [f]
                          | None => []
                          end) order.

(** The loop over the completed futures. *)
Fixpoint completed_loop (self : BacklinksVerifier) (net : Network)
         (search_term : string) (search_in_html case_sensitive : bool)
         (futures : list string) (results : list BacklinkResult)
  : list BacklinkResult :=
  match futures with
  | [] => results
  | url :: rest =>
      completed_loop self net search_term search_in_html case_sensitive rest
        (results ++ [checked_backlink self net search_term search_in_html
                       case_sensitive url])%list
  end.

(** [verify_multiple_backlinks].  [init_browser] is not defined by the class,
    so reaching that call raises; a pool of no worker is refused by
    [ThreadPoolExecutor].  The pacing sleeps after each URL are left out:
    they return for the delays of 0.5 to 5 seconds that the request model
    admits, which is the range covered here. *)
Definition verify_multiple_backlinks (self : BacklinksVerifier) (net : Network)
           (order : list nat) (urls : list string) (search_term : string)
           (search_in_html case_sensitive : bool) (max_workers : Z)
           (use_browser_arg : bool) : Outcome (list BacklinkResult) :=
  if (use_browser_arg && negb (use_browser self))%bool then
    Raised "'BacklinksVerifier' object has no attribute 'init_browser'"
  else
    let max_workers := if use_browser self then 1 else max_workers in
    let max_workers := Z.min max_workers 3 in
    if max_workers =? 1 then
      Returned (sequential_loop self net search_term search_in_html
                                case_sensitive urls [])
    else if max_workers <=? 0 then
      Raised "max_workers must be greater than 0"
    else
      Returned (completed_loop self net search_term search_in_html case_sensitive
                  (as_completed order (submitted urls)) []).

(** ** Summary of a batch: [process_backlinks], [verify_backlinks_sync] *)

(** Python floats: IEEE binary64 with round-to-nearest-even. *)
Module Float64.

Definition prec : Z := 53.
Definition emax : Z := 1024.

(** [float(n)] *)
Definition of_int (n : Z) : spec_float := binary_normalize prec emax n 0 false.

Definition mul (x y : spec_float) : spec_float := SFmul prec emax x y.
Definition div (x y : spec_float) : spec_float := SFdiv prec emax x y.

(** [a / b] on integers small enough to be floats exactly (below [2^53], as
    the length of a list in memory is) and [b] not zero. *)
Definition true_divide (a b : Z) : spec_float := div (of_int a) (of_int b).

(** The integer nearest to [num / den], ties to the even one; [den > 0]. *)
Definition nearest_even (num den : Z) : Z :=
  let q := num / den in
  let r := num mod den in
  match 2 * r ?= den with
  | Lt => q
  | Gt => q + 1
  | Eq => if Z.even q then q else q + 1
  end.

(** The integer nearest to [10 * (m * 2^e)], ties to even. *)
Definition tenths_of (m : positive) (e : Z) : Z :=
  if 0 <=? e then 10 * Z.pos m * 2 ^ e
  else nearest_even (10 * Z.pos m) (2 ^ (- e)).

(** [round(x, 1)]: the exact value of [x] is rounded half-even to one
    decimal, and the float nearest that decimal is returned. *)
Definition round1 (x : spec_float) : spec_float :=
  match x with
  | S754_finite s m e =>
      match tenths_of m e with
      | Z.pos n => div (S754_finite s n 0) (of_int 10)
      | _ => S754_zero s
      end
  | _ => x
  end.

End Float64.

(** A JSON number of the summary: Python [int] or [float]. *)
Inductive PyNumber : Type :=
| PyInt (n : Z)
| PyFloat (x : spec_float).

Record Summary : Type := mkSummary {
  total_urls : Z;
  verified_count : Z;
  error_count : Z;
  success_rate : PyNumber
}.

(** [sum(1 for r in results if cond(r))] *)
Definition sum_ones {A : Type} (cond : A -> bool) (results : list A) : Z :=
  List.fold_left (fun acc r => if cond r then acc + 1 else acc) results 0.

(** Truth value of an [Optional[str]]. *)
Definition truthy_opt (s : option string) : bool :=
  match s with Some s => truthy s | None => false end.

(** [round((verified_count / total_count) * 100, 1) if total_count > 0 else 0] *)
Definition rate (verified_count total_count : Z) : PyNumber :=
  if 0 <? total_count then
    PyFloat (Float64.round1
               (Float64.mul (Float64.true_divide verified_count total_count)
                            (Float64.of_int 100)))
  else PyInt 0.

(** The [summary] dictionary. *)
Definition summarize (results : list BacklinkResult) : Summary :=
  let verified_count := sum_ones verified results in
  let error_count := sum_ones (fun r => truthy_opt (error r)) results in
  let total_count := Z.of_nat (List.length results) in
  mkSummary total_count verified_count error_count
            (rate verified_count total_count).

(** ** Auxiliary notions used by the statements *)

(** Lower-casing changes the character. *)
Definition changed_by_lower (c : ascii) : bool :=
  negb (String.eqb (lower_full c) (String c EmptyString)).

(** Some character of the string is changed by lower-casing. *)
Fixpoint lower_sensitive (s : string) : bool :=
  match s with
  | EmptyString => false
  | String c s' => (changed_by_lower c || lower_sensitive s')%bool
  end.

(** Some character of the string is an upper-case letter. *)
Fixpoint has_uppercase (s : string) : bool :=
  match s with
  | EmptyString => false
  | String c s' => (is_uppercase c || has_uppercase s')%bool
  end.

(** A one-character term: the double-struck capital C. *)
Definition double_struck_term : string := String double_struck_c EmptyString.

(** A page about that letter, as a successful fetch delivers it. *)
Definition double_struck_page : FetchOutcome :=
  FetchOk (lower ("The set " ++ double_struck_term ++ " of complex numbers"))
          (lower ("<p>The set " ++ double_struck_term ++ " of complex numbers</p>"))
          200 "https://host.test/sets" None.

(** [c * n] *)
Fixpoint repeat_char (c : ascii) (n : nat) : string :=
  match n with
  | O => EmptyString
  | S n' => String c (repeat_char c n')
  end.

(** A body of 100 characters that starts with the capital I with dot above. *)
Definition dotted_body : string := String capital_i_dot (repeat_char "a" 99).

(** Whether an [Optional] field is present. *)
Definition present {A : Type} (x : option A) : bool :=
  match x with Some _ => true | None => false end.

(** What the search steps keep true of the local variables: a context or a
    matched variation is recorded only together with one of the two flags. *)
Definition scan_consistent (st : ScanState) : Prop :=
  (found_in_text st || found_in_html st)%bool = false ->
  cur_context st = None /\ cur_variation st = None.

(** The result assembled at the end of [verify_backlink] from the final
    values of the local variables. *)
Definition result_of_scan (st : ScanState) (url search_term : string)
           (sc : Z) (warn : option string) : BacklinkResult :=
  mkResult url search_term (found_in_text st || found_in_html st)%bool None
           (Some sc)
           (if found_in_text st then Some "Page Text"
            else if found_in_html st then Some "HTML/Links" else None)
           (limit_context (cur_context st)) (cur_variation st) warn.

(** The page of the first scenario. *)
Definition example_page (html_content final_url : string) (sc : Z)
           (warn : option string) : FetchOutcome :=
  FetchOk "visit www.example.com today" html_content sc final_url warn.

(** The local variables after the text scan, the HTML scan and the URL
    check, before the last check. *)
Definition before_links (variations : list string)
           (text_content html_content result_url : string)
           (search_in_html : bool) : ScanState :=
  scan_url variations result_url
    (scan_html search_in_html variations html_content
       (scan_text variations text_content scan_init)).

(** [s] without the prefix [p], when it has it. *)
Definition strip_prefix (p s : string) : string :=
  if startswith s p then drop (String.length p) s else s.

(** The bare domain token in the words of the specification: protocol and
    [www.] prefixes stripped, then the segment before the first slash. *)
Definition spec_domain_token (search_term : string) : string :=
  first (split_char "/"
           (strip_prefix "www."
              (strip_prefix "http://"
                 (strip_prefix "https://" (lower search_term))))).

(** Its first dot-separated label. *)
Definition spec_domain_label (search_term : string) : string :=
  first (split_char "." (spec_domain_token search_term)).

(** A page that links to acmewidgets.io without the [www.] prefix. *)
Definition partner_page : FetchOutcome :=
  FetchOk "our partners"
          "<a href='https://acmewidgets.io/partner'>partner</a>"
          200 "https://host.test/links" None.

(** The retry loop as it stands when attempt [k] begins. *)
Definition fetch_from (self : BacklinksVerifier) (net : Network) (url : string)
           (max_retries k : Z) : Outcome FetchOutcome :=
  fetch_loop self net url max_retries (Z.to_nat (max_retries - k)) k.

(** Every attempt before [k] ended in [continue]. *)
Definition retried_until (self : BacklinksVerifier) (net : Network)
           (url : string) (max_retries k : Z) : Prop :=
  forall i : Z, 0 <= i < k ->
    fetch_attempt self url max_retries i (net url i) = Continue.

(** A body that does not make a 403 response usable: it cannot be decoded,
    or its lower-cased text has at most 100 characters (none when the body
    is absent). *)
Definition insufficient_body (r : Response) : Prop :=
  response_text r = None
  \/ exists body : string,
      response_text r = Some body /\ len (lower body) <= 100.

(** A 403 response with a body of 40 characters. *)
Definition forbidden_short : Response :=
  mkResponse 403
             "<html><body>Access denied.</body></html>"
             (Some "<html><body>Access denied.</body></html>")
             "https://host.test/a" "Forbidden"
             "Access denied."
             "<html><body>Access denied.</body></html>".

(** A 403 response with a body of 123 characters. *)
Definition forbidden_long : Response :=
  mkResponse 403
             "<html><body><p>Our partner Example.com is listed on this page of the directory, see www.example.com today</p></body></html>"
             (Some "<html><body><p>Our partner Example.com is listed on this page of the directory, see www.example.com today</p></body></html>")
             "https://host.test/a" "Forbidden"
             "Our partner Example.com is listed on this page of the directory, see www.example.com today"
             "<html><body><p>Our partner Example.com is listed on this page of the directory, see www.example.com today</p></body></html>".

(** A 403 response whose body is [dotted_body]. *)
Definition forbidden_dotted : Response :=
  mkResponse 403 dotted_body (Some dotted_body) "https://host.test/a" "Forbidden"
             dotted_body dotted_body.

Definition default_verifier : BacklinksVerifier := mkVerifier 10 false.

(** A network that answers every attempt with [r]. *)
Definition always (r : Response) : Network := fun _ _ => Responded r.

(** [url.strip()] is not empty. *)
Definition nonblank (url : string) : bool := truthy (strip url).

(** A page served with status 200. *)
Definition ok_page (body : string) : Response :=
  mkResponse 200 body (Some body) "https://a.test/" "OK" body body.

(** A network on which one host times out and one makes the client fail
    with an exception that the fetcher does not handle. *)
Definition sample_net : Network :=
  fun url _ =>
    if String.eqb url "https://b.test/" then TimedOut
    else if String.eqb url "https://c.test/" then Crashed "codec failure"
    else Responded (ok_page "visit www.example.com today").

(** Five URLs with text, and two blank entries. *)
Definition sample_urls : list string :=
  [ "https://a.test/"; "  "; " https://b.test/ "; "https://c.test/";
    EmptyString; "d.test"; "https://a.test/" ].

(** The number of elements of [xs] that satisfy [p]. *)
Definition count {A : Type} (p : A -> bool) (xs : list A) : Z :=
  Z.of_nat (List.length (List.filter p xs)).

(** The success rate in the words of the specification:
    [round(100 * verifiedCount / totalCount, 1)], and 0 for an empty batch. *)
Definition spec_rate (verified_count total_count : Z) : PyNumber :=
  if total_count =? 0 then PyInt 0
  else PyFloat (Float64.round1
                  (Float64.true_divide (100 * verified_count) total_count)).

(** The exact percentage [100 * v / t] rounded half-even to one decimal,
    counted in tenths. *)
Definition exact_tenths (verified_count total_count : Z) : Z :=
  Float64.nearest_even (1000 * verified_count) total_count.

(** A number of the summary counted in tenths, rounded half-even. *)
Definition tenths (x : PyNumber) : Z :=
  match x with
  | PyInt n => 10 * n
  | PyFloat (S754_finite false m e) => Float64.tenths_of m e
  | PyFloat (S754_finite true m e) => - Float64.tenths_of m e
  | PyFloat _ => 0
  end.

(** A result as the match returns it for a page with or without the term. *)
Definition sample_result (found : bool) : BacklinkResult :=
  mkResult "https://a.test/" "example.com" found None (Some 200)
           (if found then Some "Page Text" else None)
           (if found then Some "visit www.example.com today" else None)
           (if found then Some "example.com" else None) None.

(** A batch of 80 results of which 23 are verified. *)
Definition batch_23_of_80 : list BacklinkResult :=
  (List.repeat (sample_result true) 23 ++ List.repeat (sample_result false) 57)%list.

(** A network on which every request fails with an exception whose message
    is empty. *)
Definition silent_failure : Network := fun _ _ => RequestFailed EmptyString None.



(** ** The rest of the service *)

(** One of the two flags is set exactly when a matched variation is
    recorded, and the flags are never set together. *)
Definition scan_flagged (st : ScanState) : Prop :=
  (found_in_text st || found_in_html st)%bool = present (cur_variation st)
  /\ (found_in_text st && found_in_html st)%bool = false.

(** [r] with its [search_term] field replaced. *)
Definition with_search_term (r : BacklinkResult) (term : string) : BacklinkResult :=
  mkResult (url r) term (verified r) (error r) (status_code r) (found_in r)
           (context r) (found_variation r) (warning r).

(** [s.isascii()]: every character of [s] is below U+0080. *)
Fixpoint is_ascii (s : string) : bool :=
  match s with
  | EmptyString => true
  | String c s' => (Nat.ltb (code c) 128 && is_ascii s')%bool
  end.

(** A network on which every request times out. *)
Definition always_timeout : Network := fun _ _ => TimedOut.

(** A response with the given status and a short body. *)
Definition status_page (status : Z) (reason : string) : Response :=
  mkResponse status "gone" (Some "gone") "https://a.test/x" reason "gone" "gone".

(** An attempt that ends with one of the failures that the loop retries:
    a timeout, a request exception, or an HTTP error status other than 403. *)
Definition transient (ev : Attempt) : Prop :=
  ev = TimedOut
  \/ (exists msg resp, ev = RequestFailed msg resp)
  \/ (exists r, ev = Responded r /\ resp_status r <> 403
                /\ 400 <= resp_status r < 600).

(** What every result of a batch for [term] satisfies: it echoes the term
    and a URL with text, a verified result has no error, and a result with
    an error reports nothing else. *)
Definition well_formed_result (term : string) (r : BacklinkResult) : Prop :=
  search_term r = term
  /\ nonblank (url r) = true
  /\ strip (url r) = url r
  /\ (verified r = true -> error r = None)
  /\ (present (error r) = true ->
      verified r = false /\ found_in r = None /\ context r = None
      /\ found_variation r = None /\ warning r = None).

(** Structural equality of two floats. *)
Definition same_float (x y : spec_float) : bool :=
  match x, y with
  | S754_zero s, S754_zero s' => Bool.eqb s s'
  | S754_infinity s, S754_infinity s' => Bool.eqb s s'
  | S754_nan, S754_nan => true
  | S754_finite s m e, S754_finite s' m' e' =>
      (Bool.eqb s s' && Pos.eqb m m' && Z.eqb e e')%bool
  | _, _ => false
  end.

(** Structural equality of two numbers of a summary. *)
Definition same_number (x y : PyNumber) : bool :=
  match x, y with
  | PyInt n, PyInt n' => Z.eqb n n'
  | PyFloat a, PyFloat b => same_float a b
  | _, _ => false
  end.

(** The code's rate and the specification's formula agree for every count of
    verified results out of [t]. *)
Definition rate_agrees_row (t : nat) : bool :=
  List.forallb (fun v => same_number (rate (Z.of_nat v) (Z.of_nat t))
                                     (spec_rate (Z.of_nat v) (Z.of_nat t)))
               (List.seq 0 (S t)).

(** ** The request model and the endpoints *)

(** [BacklinkRequest].  The fields [delay] (pacing) and [debug] (logging)
    reach no returned value and are left out. *)
Record BacklinkRequest : Type := mkRequest {
  req_urls : list string;
  req_search_term : string;
  req_search_in_html : bool;
  req_case_sensitive : bool;
  req_timeout : Z;
  req_max_workers : Z;
  req_use_browser : bool
}.

(** The validator of the [urls] field. *)
Definition validate_urls (v : list string) : Outcome (list string) :=
  match v with
  | [] => Raised "At least one URL is required"
  | _ => Returned (List.map strip (List.filter (fun url => truthy (strip url)) v))
  end.

(** The [Field] constraints of the request model. *)
Definition field_constraints (r : BacklinkRequest) : bool :=
  ((1 <=? Z.of_nat (List.length (req_urls r)))
   && (1 <=? len (req_search_term r))
   && (5 <=? req_timeout r) && (req_timeout r <=? 30)
   && (1 <=? req_max_workers r) && (req_max_workers r <=? 10))%bool.

(** Validation of a request body: the constraints, then the validator. *)
Definition parse_request (raw : BacklinkRequest) : Outcome BacklinkRequest :=
  if field_constraints raw then
    match validate_urls (req_urls raw) with
    | Returned urls =>
        Returned (mkRequest urls (req_search_term raw) (req_search_in_html raw)
                            (req_case_sensitive raw) (req_timeout raw)
                            (req_max_workers raw) (req_use_browser raw))
    | Raised msg => Raised msg
    end
  else Raised "validation error".

(** An endpoint answers with a value or with an [HTTPException]. *)
Inductive HttpResult (A : Type) : Type :=
| HttpOk (a : A)
| HttpError (status : Z) (detail : string).

Arguments HttpOk {A} a.
Arguments HttpError {A} status detail.

(** [BacklinkResponse], which is also the shape of a stored job.  Job
    identifiers come from [uuid4] and times from the clock; both are inputs
    here. *)
Record BacklinkResponse : Type := mkResponseBody {
  job_id : string;
  job_status : string;
  job_results : option (list BacklinkResult);
  job_summary : option Summary;
  job_error : option string;
  created_at : Z;
  completed_at : option Z
}.

(** [BacklinksVerifier(timeout=request.timeout, delay=request.delay,
    use_browser=request.use_browser)] *)
Definition verifier_of (request : BacklinkRequest) : BacklinksVerifier :=
  mkVerifier (req_timeout request) (req_use_browser request).

(** The call of [verify_multiple_backlinks] that all endpoints make. *)
Definition run_request (net : Network) (order : list nat)
           (request : BacklinkRequest) : Outcome (list BacklinkResult) :=
  verify_multiple_backlinks (verifier_of request) net order (req_urls request)
    (req_search_term request) (req_search_in_html request)
    (req_case_sensitive request) (req_max_workers request)
    (req_use_browser request).

(** [verify_backlinks_sync]; [new_id], [now] and [later] are the identifier
    and the two clock readings of the response. *)
Definition verify_backlinks_sync (net : Network) (order : list nat)
           (new_id : string) (now later : Z) (request : BacklinkRequest)
  : HttpResult BacklinkResponse :=
  if 10 <? Z.of_nat (List.length (req_urls request)) then
    HttpError 400 "Synchronous verification limited to 10 URLs. Use async endpoint for larger batches."
  else
    match run_request net order request with
    | Returned results =>
        HttpOk (mkResponseBody new_id "completed" (Some results)
                               (Some (summarize results)) None now (Some later))
    | Raised msg => HttpError 500 msg
    end.

(** The in-memory [job_results] dictionary. *)
Definition JobStore : Type := string -> option BacklinkResponse.

Definition empty_store : JobStore := fun _ => None.

(** [job_results[key] = job] *)
Definition store_set (store : JobStore) (key : string) (job : BacklinkResponse)
  : JobStore :=
  fun k => if String.eqb k key then Some job else store k.

(** [verify_backlinks_async]: the new job is stored as pending and returned;
    [process_backlinks] is left to the background. *)
Definition verify_backlinks_async (store : JobStore) (new_id : string) (now : Z)
  : JobStore * BacklinkResponse :=
  let job := mkResponseBody new_id "pending" None None None now None in
  (store_set store new_id job, job).

(** [process_backlinks].  A missing job makes the first statement raise
    [KeyError], and so does the update in the handler, which therefore lets
    it through. *)
Definition process_backlinks (store : JobStore) (net : Network) (order : list nat)
           (now : Z) (id : string) (request : BacklinkRequest) : Outcome JobStore :=
  match store id with
  | None => Raised ("'" ++ id ++ "'")
  | Some job =>
      match run_request net order request with
      | Returned results =>
          Returned (store_set store id
                      (mkResponseBody (job_id job) "completed" (Some results)
                                      (Some (summarize results)) (job_error job)
                                      (created_at job) (Some now)))
      | Raised msg =>
          Returned (store_set store id
                      (mkResponseBody (job_id job) "error" (job_results job)
                                      (job_summary job) (Some msg)
                                      (created_at job) (Some now)))
      end
  end.

(** [get_job_status] *)
Definition get_job_status (store : JobStore) (id : string)
  : HttpResult BacklinkResponse :=
  match store id with
  | None => HttpError 404 "Job not found"
  | Some job => HttpOk job
  end.

(** A request body as a client may send it. *)
Definition sample_request : BacklinkRequest :=
  mkRequest [" https://a.test/ "; "  "; "d.test"] "example.com" true false 10 3 false.

(** [sample_request] once validated. *)
Definition parsed_sample : BacklinkRequest :=
  mkRequest ["https://a.test/"; "d.test"] "example.com" true false 10 3 false.

(** ** The streaming endpoint *)

(** The payloads of the events that [generate_results] yields; each is sent
    as one [data:] line of JSON, which is not modelled. *)
Inductive StreamEvent : Type :=
| StreamStarted (total : Z)
| StreamProcessing (current_url : string) (progress total : Z)
| StreamResult (result : BacklinkResult) (progress : Z)
| StreamCompleted (summary : Summary) (all_results : list BacklinkResult)
| StreamError (msg : string).

(** The local variables of [generate_results] and the events yielded so far. *)
Record StreamState : Type := mkStream {
  stream_results : list BacklinkResult;
  stream_verified : Z;
  stream_errors : Z;
  stream_events : list StreamEvent
}.

(** [for i, url in enumerate(request.urls)], from index [i] on. *)
Fixpoint stream_loop (net : Network) (request : BacklinkRequest)
         (urls : list string) (i : Z) (st : StreamState) : StreamState :=
  match urls with
  | [] => st
  | url :: rest =>
      if negb (truthy (strip url)) then stream_loop net request rest (i + 1) st
      else
        let total := Z.of_nat (List.length (req_urls request)) in
        let events := (stream_events st ++ [StreamProcessing url (i + 1) total])%list in
        match verify_backlink (verifier_of request) net (strip url)
                              (req_search_term request) (req_search_in_html request)
                              (req_case_sensitive request) with
        | Returned result =>
            stream_loop net request rest (i + 1)
              (mkStream (stream_results st ++ [result])%list
                        (if verified result then stream_verified st + 1
                         else stream_verified st)
                        (if truthy_opt (error result) then stream_errors st + 1
                         else stream_errors st)
                        (events ++ [StreamResult result (i + 1)])%list)
        | Raised msg =>
            let error_result :=
              mkResult (strip url) (req_search_term request) false
                       (Some ("Processing error: " ++ msg)) None None None None None in
            stream_loop net request rest (i + 1)
              (mkStream (stream_results st ++ [error_result])%list
                        (stream_verified st)
                        (stream_errors st + 1)
                        (events ++ [StreamResult error_result (i + 1)])%list)
        end
  end.

(** [generate_results]: every event of the stream, in order. *)
Definition generate_results (net : Network) (request : BacklinkRequest)
  : list StreamEvent :=
  let total := Z.of_nat (List.length (req_urls request)) in
  let st := stream_loop net request (req_urls request) 0
                        (mkStream [] 0 0 [StreamStarted total]) in
  (stream_events st
   ++ [StreamCompleted
         (mkSummary total (stream_verified st) (stream_errors st)
                    (rate (stream_verified st) total))
         (stream_results st)])%list.

(** The two events of each entry that has text, from index [i] on. *)
Fixpoint stream_body (check : string -> BacklinkResult) (total : Z)
         (urls : list string) (i : Z) : list StreamEvent :=
  match urls with
  | [] => []
  | url :: rest =>
      if truthy (strip url) then
        StreamProcessing url (i + 1) total
        :: StreamResult (check (strip url)) (i + 1)
        :: stream_body check total rest (i + 1)
      else stream_body check total rest (i + 1)
  end.

(** ** The upload helper *)

(** [s.endswith(suffix)] *)
Definition endswith (s suffix : string) : bool :=
  (Nat.leb (String.length suffix) (String.length s)
   && String.eqb (drop (String.length s - String.length suffix) s) suffix)%bool.

Definition allowed_extension (filename : string) : bool :=
  existsb (endswith (lower filename)) [".csv"; ".xlsx"; ".xls"].

Definition is_excel (filename : string) : bool :=
  existsb (endswith (lower filename)) [".xlsx"; ".xls"].

Definition url_keywords : list string :=
  ["submitted url"; "submitted_url"; "submittedurl";
   "url"; "website"; "link"; "domain"; "site"].

(** The test that puts a column into [url_columns]. *)
Definition is_url_column (col : string) : bool :=
  let col_lower := strip (lower col) in
  existsb (fun keyword => str_in keyword col_lower) url_keywords.

(** The loop that replaces the first matching column by the first one whose
    name contains "submitted". *)
Fixpoint prefer_submitted (url_columns : list string) (url_column : string)
  : string :=
  match url_columns with
  | [] => url_column
  | col :: rest =>
      if str_in "submitted" (lower col) then col
      else prefer_submitted rest url_column
  end.

Definition null_words : list string := ["nan"; "none"; EmptyString; "null"].

(** The loop that fills [cleaned_urls]. *)
Fixpoint clean_urls (urls : list string) : list string :=
  match urls with
  | [] => []
  | url :: rest =>
      let url := strip url in
      if (truthy url && negb (existsb (String.eqb (lower url)) null_words))%bool
      then
        (if (negb (startswith url "http://" || startswith url "https://")
             && str_in "." url)%bool
         then "https://" ++ url else url) :: clean_urls rest
      else clean_urls rest
  end.

(** What the code reads from the parsed table: the column names, taken to be
    strings, and for each column its cells without the missing ones, as
    [df[col].dropna().astype(str).tolist()] gives them. *)
Record DataFrame : Type := mkFrame {
  df_columns : list string;
  df_cells : string -> list string
}.

(** What reading the upload with pandas gives. *)
Inductive FileContents : Type :=
| Parsed (df : DataFrame)
| EmptyData
| ParserError (msg : string)
| OtherError (msg : string).

Record UploadResponse : Type := mkUpload {
  up_message : string;
  up_urls : list string;
  up_total_count : Z;
  up_column_used : string;
  up_file_type : string;
  up_available_columns : list string
}.

(** [repr] of a list of strings that need no escaping. *)
Definition list_repr (xs : list string) : string :=
  "[" ++ join ", " (List.map (fun x => "'" ++ x ++ "'") xs) ++ "]".

(** [str(e)] of an [HTTPException]. *)
Definition http_exception_str (status : Z) (detail : string) : string :=
  str_of_Z status ++ ": " ++ detail.

(** [upload_file].  The two [HTTPException]s with status 400 that are raised
    inside the [try] block are caught by its last handler, like any other
    exception, and raised again with status 500. *)
Definition upload_file (filename : string) (contents : FileContents)
  : HttpResult UploadResponse :=
  if negb (allowed_extension filename) then
    HttpError 400 "File must be CSV, XLSX, or XLS"
  else
    match contents with
    | EmptyData => HttpError 400 "File is empty or corrupted"
    | ParserError msg => HttpError 400 ("Error parsing file: " ++ msg)
    | OtherError msg => HttpError 500 ("Error processing file: " ++ msg)
    | Parsed df =>
        match List.filter is_url_column (df_columns df) with
        | [] =>
            HttpError 500
              ("Error processing file: "
               ++ http_exception_str 400
                    ("No URL column found. Available columns: "
                     ++ list_repr (df_columns df)
                     ++ ". Expected column names: 'submitted url', 'url', 'website', 'link', etc."))
        | first_column :: other_columns =>
            let url_column :=
              prefer_submitted (first_column :: other_columns) first_column in
            match clean_urls (df_cells df url_column) with
            | [] =>
                HttpError 500
                  ("Error processing file: "
                   ++ http_exception_str 400
                        ("No valid URLs found in column '" ++ url_column ++ "'"))
            | cleaned_urls =>
                HttpOk (mkUpload
                          ("Successfully loaded "
                           ++ str_of_Z (Z.of_nat (List.length cleaned_urls))
                           ++ " URLs from column '" ++ url_column ++ "'")
                          cleaned_urls
                          (Z.of_nat (List.length cleaned_urls))
                          url_column
                          (if is_excel filename then "Excel" else "CSV")
                          (df_columns df))
            end
        end
    end.

(** A table with a notes column and two URL columns. *)
Definition sample_frame : DataFrame :=
  mkFrame ["Notes"; "Website"; " Submitted URL "]
          (fun col =>
             if String.eqb col " Submitted URL "
             then [" example.com/page "; "nan"; "http://b.test"; "localhost"]
             else []).

(** What makes an extracted URL usable: it has text, is stripped, and has a
    scheme or no dot at all. *)
Definition clean_url (u : string) : Prop :=
  nonblank u = true
  /\ strip u = u
  /\ ((startswith u "http://" || startswith u "https://")%bool = true
      \/ str_in "." u = false).

(** * Properties *)

(** ** Facts about the string primitives *)

Section StringFacts.

Lemma str_in_unfold (v s : string) :
  str_in v s =
  (String.prefix v s
   || match s with
      | EmptyString => false
      | String _ s' => str_in v s'
      end)%bool.
Proof. destruct s; reflexivity. Qed.

Lemma find_from_unfold (i : Z) (v s : string) :
  find_from i v s =
  if String.prefix v s then i
  else match s with
       | EmptyString => -1
       | String _ s' => find_from (i + 1) v s'
       end.
Proof. destruct s; reflexivity. Qed.

(** [in] and [find] agree: a substring is found at a valid index. *)
Lemma find_from_found (v s : string) (i : Z) :
  str_in v s = true -> i <= find_from i v s.
Proof.
  revert i; induction s as [|c s IH]; intros i H;
    rewrite str_in_unfold in H; rewrite find_from_unfold.
  - destruct (String.prefix v EmptyString); [lia | discriminate].
  - destruct (String.prefix v (String c s)); [lia|].
    simpl in H. specialize (IH (i + 1) H). lia.
Qed.

Lemma find_from_missing (v s : string) (i : Z) :
  str_in v s = false -> find_from i v s = -1.
Proof.
  revert i; induction s as [|c s IH]; intros i H;
    rewrite str_in_unfold in H; rewrite find_from_unfold.
  - destruct (String.prefix v EmptyString); [discriminate | reflexivity].
  - destruct (String.prefix v (String c s)); [discriminate|].
    simpl in H. now apply IH.
Qed.

Lemma find_found (s v : string) : str_in v s = true -> 0 <= find s v.
Proof. apply find_from_found. Qed.

Lemma find_not_minus_one (s v : string) :
  str_in v s = true -> (find s v =? -1) = false.
Proof. intros H. apply find_found in H. apply Z.eqb_neq. lia. Qed.

(** Case mapping, character by character. *)
Lemma lower_full_fixed (c : ascii) : lower (lower_full c) = lower_full c.
Proof. destruct c as [[] [] [] [] [] [] [] []]; reflexivity. Qed.

Lemma lower_full_settled (c : ascii) : lower_sensitive (lower_full c) = false.
Proof. destruct c as [[] [] [] [] [] [] [] []]; reflexivity. Qed.

Lemma lower_full_length (c : ascii) : (1 <= String.length (lower_full c))%nat.
Proof. unfold lower_full. destruct (Nat.eqb (code c) 128); simpl; lia. Qed.

Lemma length_append (a b : string) :
  String.length (a ++ b) = (String.length a + String.length b)%nat.
Proof. induction a; simpl; congruence. Qed.

Lemma append_assoc (a b c : string) : (a ++ b) ++ c = a ++ (b ++ c).
Proof. induction a; simpl; congruence. Qed.

Lemma lower_app (a b : string) : lower (a ++ b) = lower a ++ lower b.
Proof.
  induction a as [|c a IH]; simpl; [reflexivity|].
  now rewrite IH, append_assoc.
Qed.

Lemma lower_sensitive_app (a b : string) :
  lower_sensitive (a ++ b) = (lower_sensitive a || lower_sensitive b)%bool.
Proof.
  induction a as [|c a IH]; simpl; [reflexivity|].
  now rewrite IH, orb_assoc.
Qed.

(** Lower-casing leaves nothing that lower-casing would change. *)
Lemma lower_settled (s : string) : lower_sensitive (lower s) = false.
Proof.
  induction s as [|c s IH]; simpl; [reflexivity|].
  now rewrite lower_sensitive_app, lower_full_settled, IH.
Qed.

Lemma lower_fixed_settled (s : string) : lower s = s -> lower_sensitive s = false.
Proof. intros <-. apply lower_settled. Qed.

Lemma lower_idempotent (s : string) : lower (lower s) = lower s.
Proof.
  induction s as [|c s IH]; simpl; [reflexivity|].
  now rewrite lower_app, lower_full_fixed, IH.
Qed.

(** Lower-casing never shortens a string. *)
Lemma length_lower_ge (s : string) : (String.length s <= String.length (lower s))%nat.
Proof.
  induction s as [|c s IH]; simpl; [lia|].
  rewrite length_append. pose proof (lower_full_length c). lia.
Qed.

Lemma len_lower_ge (s : string) : len s <= len (lower s).
Proof. unfold len. pose proof (length_lower_ge s). lia. Qed.

(** A string that lower-casing would change is no substring of one that it
    would not. *)
Lemma prefix_lower_sensitive (v s : string) :
  String.prefix v s = true -> lower_sensitive v = true -> lower_sensitive s = true.
Proof.
  revert s; induction v as [|a v IH]; intros s Hp Hu.
  - discriminate.
  - destruct s as [|b s]; [discriminate|].
    simpl in Hp. destruct (ascii_dec a b) as [->|]; [|discriminate].
    simpl in *. apply orb_true_iff in Hu as [Hu|Hu].
    + now rewrite Hu.
    + rewrite (IH s Hp Hu). apply orb_true_r.
Qed.

Lemma str_in_lower_sensitive (v s : string) :
  str_in v s = true -> lower_sensitive v = true -> lower_sensitive s = true.
Proof.
  induction s as [|c s IH]; intros Hin Hu; rewrite str_in_unfold in Hin.
  - rewrite orb_false_r in Hin. exact (prefix_lower_sensitive _ _ Hin Hu).
  - apply orb_true_iff in Hin as [Hp|Hin].
    + exact (prefix_lower_sensitive _ _ Hp Hu).
    + simpl. rewrite (IH Hin Hu). apply orb_true_r.
Qed.

Lemma str_in_lowercased (v s : string) :
  lower_sensitive v = true -> lower_sensitive s = false -> str_in v s = false.
Proof.
  intros Hv Hs. destruct (str_in v s) eqn:E; [|reflexivity].
  rewrite (str_in_lower_sensitive _ _ E Hv) in Hs. discriminate.
Qed.

Lemma prefix_nil (s : string) : String.prefix EmptyString s = true.
Proof. destruct s; reflexivity. Qed.

Lemma startswith_app (p rest : string) : startswith (p ++ rest) p = true.
Proof.
  unfold startswith. induction p as [|a p IH]; simpl.
  - apply prefix_nil.
  - destruct (ascii_dec a a); [exact IH | congruence].
Qed.

End StringFacts.

(** ** Match engine *)

Section MatchEngine.

Variables (url search_term : string) (search_in_html case_sensitive : bool).

Lemma scan_init_consistent : scan_consistent scan_init.
Proof. intros _. split; reflexivity. Qed.

Lemma scan_text_consistent (vs : list string) (text : string) (st : ScanState) :
  scan_consistent st -> scan_consistent (scan_text vs text st).
Proof.
  intros Hst. induction vs as [|v vs IH]; simpl; [exact Hst|].
  destruct (str_in v text); [|exact IH].
  intros H. discriminate H.
Qed.

Lemma scan_html_consistent (vs : list string) (html : string) (st : ScanState) :
  scan_consistent st -> scan_consistent (scan_html search_in_html vs html st).
Proof.
  intros Hst. unfold scan_html.
  destruct (negb (found_in_text st) && search_in_html)%bool; [|exact Hst].
  induction vs as [|v vs IH]; simpl; [exact Hst|].
  destruct (str_in v html); [|exact IH].
  intros H. simpl in H. rewrite orb_true_r in H. discriminate H.
Qed.

Lemma scan_url_consistent (vs : list string) (u : string) (st : ScanState) :
  scan_consistent st -> scan_consistent (scan_url vs u st).
Proof.
  intros Hst. unfold scan_url.
  destruct (negb (found_in_text st) && negb (found_in_html st))%bool; [|exact Hst].
  induction vs as [|v vs IH]; simpl; [exact Hst|].
  destruct (str_in v (lower u)); [|exact IH].
  intros H. simpl in H. rewrite orb_true_r in H. discriminate H.
Qed.

Lemma scan_links_consistent (html : string) (st : ScanState) :
  scan_consistent st ->
  scan_consistent (scan_links search_in_html search_term html st).
Proof.
  intros Hst. unfold scan_links.
  destruct (negb (found_in_text st) && negb (found_in_html st) && search_in_html)%bool;
    [|exact Hst].
  destruct (str_in (domain_label search_term) html
            && (3 <? len (domain_label search_term)))%bool; [|exact Hst].
  intros H. simpl in H. rewrite orb_true_r in H. discriminate H.
Qed.

Lemma run_search_consistent (vs : list string) (text html u : string) :
  scan_consistent (run_search vs text html u search_term search_in_html).
Proof.
  unfold run_search.
  apply scan_links_consistent, scan_url_consistent, scan_html_consistent,
    scan_text_consistent, scan_init_consistent.
Qed.

Lemma verify_fetched_ok (text html u : string) (sc : Z) (warn : option string) :
  verify_fetched (FetchOk text html sc u warn) url search_term search_in_html
                 case_sensitive
  = result_of_scan (run_search (search_variations search_term case_sensitive)
                               text html u search_term search_in_html)
                   url search_term sc warn.
Proof. reflexivity. Qed.

Lemma limit_context_present (c : option string) :
  present (limit_context c) = true -> present c = true.
Proof. destruct c; [reflexivity | discriminate]. Qed.

End MatchEngine.

(** C1. When the fetch failed, the result is unverified, has no location and
    no context, and carries the error message and status code of the fetch;
    it is the same record whatever the flags, as no variation is generated
    and nothing is scanned. *)
Theorem C1_failed_fetch_propagates
        (o : FetchOutcome) (url search_term : string)
        (search_in_html case_sensitive : bool) :
  success o = false ->
  verified (verify_fetched o url search_term search_in_html case_sensitive) = false
  /\ found_in (verify_fetched o url search_term search_in_html case_sensitive) = None
  /\ context (verify_fetched o url search_term search_in_html case_sensitive) = None
  /\ error (verify_fetched o url search_term search_in_html case_sensitive)
     = fetch_error o
  /\ status_code (verify_fetched o url search_term search_in_html case_sensitive)
     = fetch_status o
  /\ verify_fetched o url search_term search_in_html case_sensitive
     = mkResult url search_term false (fetch_error o) (fetch_status o)
                None None None None.
Proof.
  destruct o as [text html sc u w | e sc u]; simpl; intros H.
  - discriminate H.
  - repeat split.
Qed.

Lemma C1_failed_fetch_witness :
  success (FetchFail "403 Forbidden - Access denied" (Some 403) "https://host.test/a")
  = false
  /\ error (verify_fetched
              (FetchFail "403 Forbidden - Access denied" (Some 403) "https://host.test/a")
              "host.test/a" "example.com" true false)
     = Some "403 Forbidden - Access denied".
Proof.
  split; [reflexivity|].
  apply (C1_failed_fetch_propagates
           (FetchFail "403 Forbidden - Access denied" (Some 403) "https://host.test/a")
           "host.test/a" "example.com" true false).
  reflexivity.
Defined.

(** C2. In every result of the match, [verified] holds exactly when a
    location is reported, and a context is present only in verified
    results. *)
Theorem C2_verified_iff_found
        (o : FetchOutcome) (url search_term : string)
        (search_in_html case_sensitive : bool) :
  verified (verify_fetched o url search_term search_in_html case_sensitive)
  = present (found_in (verify_fetched o url search_term search_in_html case_sensitive))
  /\ (present (context (verify_fetched o url search_term search_in_html case_sensitive))
      = true ->
      verified (verify_fetched o url search_term search_in_html case_sensitive) = true).
Proof.
  destruct o as [text html sc u w | e sc u].
  - rewrite verify_fetched_ok. unfold result_of_scan; simpl.
    pose proof (run_search_consistent search_term search_in_html
                  (search_variations search_term case_sensitive) text html u) as Hc.
    destruct (run_search _ text html u search_term search_in_html)
      as [ft fh ctx var]; simpl in *.
    split.
    + destruct ft, fh; reflexivity.
    + intros Hp. apply limit_context_present in Hp.
      destruct (ft || fh)%bool eqn:E; [reflexivity|].
      destruct (Hc E) as [Hctx _]. simpl in Hctx. subst ctx. discriminate Hp.
  - simpl. split; [reflexivity | discriminate].
Qed.

Lemma C2_verified_iff_found_witness :
  present (context (verify_fetched (example_page "<p>visit www.example.com today</p>"
                                                 "https://host.test/a" 200 None)
                                   "host.test/a" "example.com" true false)) = true
  /\ verified (verify_fetched (example_page "<p>visit www.example.com today</p>"
                                            "https://host.test/a" 200 None)
                              "host.test/a" "example.com" true false) = true.
Proof.
  split; [reflexivity|].
  apply (C2_verified_iff_found
           (example_page "<p>visit www.example.com today</p>" "https://host.test/a" 200 None)
           "host.test/a" "example.com" true false).
  reflexivity.
Defined.

(** C8. In case-sensitive mode the list of variations is the search term
    alone, unmodified, and that one-element list is what the search steps of
    the match run on. *)
Theorem C8_case_sensitive_single_variation (search_term : string) :
  search_variations search_term true = [search_term]
  /\ forall (text html u : string) (sc : Z) (warn : option string)
            (url : string) (search_in_html : bool),
      verify_fetched (FetchOk text html sc u warn) url search_term search_in_html true
      = result_of_scan (run_search [search_term] text html u search_term search_in_html)
                       url search_term sc warn.
Proof. split; reflexivity. Qed.

(** C4, as the specification states it, fails: on the page text
    "visit www.example.com today" the variation reported for "example.com"
    carries no [www.] prefix. *)
Lemma C4_counterexample :
  ~ (exists v : string,
        found_variation
          (verify_fetched (example_page "<p>visit www.example.com today</p>"
                                        "https://host.test/a" 200 None)
                          "host.test/a" "example.com" true false) = Some v
        /\ str_in "www." v = true).
Proof.
  intros [v [Hv Hwww]]. vm_compute in Hv. injection Hv as <-.
  vm_compute in Hwww. discriminate Hwww.
Qed.

(** C4 (amended). For the term "example.com", case-insensitively, on a page
    whose text is "visit www.example.com today", the match is verified in the
    page text and the matched variation is "example.com" itself: the
    lower-cased term is the first variation generated, and it occurs inside
    the [www.] form on the page. *)
Theorem C4_first_variation_wins
        (html final_url : string) (sc : Z) (warn : option string)
        (url : string) (search_in_html : bool) :
  hd_error (search_variations "example.com" false) = Some "example.com"
  /\ In "www.example.com" (search_variations "example.com" false)
  /\ verify_fetched (example_page html final_url sc warn) url "example.com"
                    search_in_html false
     = mkResult url "example.com" true None (Some sc) (Some "Page Text")
                (Some "visit www.example.com today") (Some "example.com") warn.
Proof.
  split; [reflexivity|]. split.
  - vm_compute. tauto.
  - destruct search_in_html; reflexivity.
Qed.

(** ** The HTML scan *)

Lemma html_context_cases (html v : string) :
  str_in v html = true ->
  html_context html v = "Found in HTML source code"
  \/ exists rest, html_context html v = "HTML: " ++ rest.
Proof.
  intros Hin. unfold html_context.
  rewrite (find_not_minus_one _ _ Hin). cbn [negb].
  match goal with |- context [truthy ?x] => destruct (truthy x) end.
  - right. eexists. reflexivity.
  - left. reflexivity.
Qed.

Lemma scan_html_loop_found (vs : list string) (html : string) (st : ScanState) :
  found_in_html st = false ->
  found_in_html (scan_html_loop vs html st) = true ->
  exists v,
    In v vs /\ str_in v html = true
    /\ cur_variation (scan_html_loop vs html st) = Some v
    /\ cur_context (scan_html_loop vs html st) = Some (html_context html v).
Proof.
  intros Hst. induction vs as [|v vs IH]; simpl.
  - intros H. congruence.
  - destruct (str_in v html) eqn:E.
    + intros _. exists v. simpl. auto.
    + intros H. destruct (IH H) as [w [Hw Hrest]]. exists w. auto.
Qed.

(** C10. In the HTML scan a variation that is a substring of the markup is
    always found by [find] at a non-negative index, so the branch giving
    "Found in HTML attributes or tags" is never taken: the context set by the
    scan is "Found in HTML source code" or starts with "HTML: ". *)
Theorem C10_html_fallback_unreachable
        (variations : list string) (html : string) (st : ScanState) :
  found_in_html st = false ->
  found_in_html (scan_html_loop variations html st) = true ->
  exists v c : string,
    cur_variation (scan_html_loop variations html st) = Some v
    /\ str_in v html = true
    /\ 0 <= find html v
    /\ cur_context (scan_html_loop variations html st) = Some c
    /\ c <> "Found in HTML attributes or tags"
    /\ (c = "Found in HTML source code" \/ startswith c "HTML: " = true).
Proof.
  intros Hst Hfound.
  destruct (scan_html_loop_found _ _ _ Hst Hfound) as [v [_ [Hin [Hv Hc]]]].
  exists v, (html_context html v).
  repeat split; auto using find_found.
  - destruct (html_context_cases _ _ Hin) as [-> | [rest ->]]; discriminate.
  - destruct (html_context_cases _ _ Hin) as [-> | [rest ->]]; [now left | right].
    apply startswith_app.
Qed.

Lemma C10_html_fallback_witness :
  found_in_html scan_init = false
  /\ found_in_html
       (scan_html_loop (search_variations "acmewidgets" false)
          "<a href='https://acmewidgets.io/partner'>partner</a>" scan_init) = true
  /\ exists v c : string,
      cur_variation
        (scan_html_loop (search_variations "acmewidgets" false)
           "<a href='https://acmewidgets.io/partner'>partner</a>" scan_init) = Some v
      /\ str_in v "<a href='https://acmewidgets.io/partner'>partner</a>" = true
      /\ 0 <= find "<a href='https://acmewidgets.io/partner'>partner</a>" v
      /\ cur_context
           (scan_html_loop (search_variations "acmewidgets" false)
              "<a href='https://acmewidgets.io/partner'>partner</a>" scan_init) = Some c
      /\ c <> "Found in HTML attributes or tags"
      /\ (c = "Found in HTML source code" \/ startswith c "HTML: " = true).
Proof.
  split; [reflexivity|]. split; [reflexivity|].
  apply (C10_html_fallback_unreachable
           (search_variations "acmewidgets" false)
           "<a href='https://acmewidgets.io/partner'>partner</a>" scan_init);
    reflexivity.
Defined.

(** ** Case-sensitive search on lower-cased content *)

Lemma scan_text_single_miss (term text : string) (st : ScanState) :
  str_in term text = false -> scan_text [term] text st = st.
Proof. intros H. simpl. now rewrite H. Qed.

Lemma scan_html_single_miss (sh : bool) (term html : string) (st : ScanState) :
  str_in term html = false -> scan_html sh [term] html st = st.
Proof.
  intros H. unfold scan_html. simpl. rewrite H. now destruct (_ && _)%bool.
Qed.

(** The final URL is lower-cased before it is compared, so the same term
    cannot match there either. *)
Lemma scan_url_single_sensitive (term u : string) (st : ScanState) :
  lower_sensitive term = true -> scan_url [term] u st = st.
Proof.
  intros H. unfold scan_url. simpl.
  rewrite (str_in_lowercased term (lower u) H (lower_settled u)).
  now destruct (_ && _)%bool.
Qed.

(** C9, as the specification states it, fails: the double-struck capital C
    is an upper-case letter that lower-casing leaves unchanged, so a
    case-sensitive search for it on the lower-cased page about the set of
    complex numbers is verified by the text scan. *)
Lemma C9_counterexample :
  has_uppercase double_struck_term = true
  /\ lower ("The set " ++ double_struck_term ++ " of complex numbers")
     = "the set " ++ double_struck_term ++ " of complex numbers"
  /\ found_in_text
       (scan_text [double_struck_term]
          (lower ("The set " ++ double_struck_term ++ " of complex numbers"))
          scan_init) = true
  /\ verified (verify_fetched double_struck_page "host.test/sets"
                              double_struck_term true true) = true
  /\ found_in (verify_fetched double_struck_page "host.test/sets"
                              double_struck_term true true) = Some "Page Text".
Proof. repeat split; vm_compute; reflexivity. Qed.

(** C9 (amended). On content that is entirely lower case, a case-sensitive
    search for a term with a character that lower-casing changes (any
    capital that has a lower-case form, such as A to Z) finds nothing in the
    text scan and nothing in the HTML scan; a verified result can only come
    from the final-URL check or from the domain-in-links check. *)
Theorem C9_case_sensitive_uppercase_term
        (text html final_url : string) (sc : Z) (warn : option string)
        (url search_term : string) (search_in_html : bool) :
  lower text = text ->
  lower html = html ->
  lower_sensitive search_term = true ->
  scan_text [search_term] text scan_init = scan_init
  /\ scan_html search_in_html [search_term] html
               (scan_text [search_term] text scan_init) = scan_init
  /\ (verified (verify_fetched (FetchOk text html sc final_url warn) url
                               search_term search_in_html true) = true ->
      found_in (verify_fetched (FetchOk text html sc final_url warn) url
                               search_term search_in_html true) = Some "HTML/Links"
      /\ ((exists c, context (verify_fetched (FetchOk text html sc final_url warn)
                                url search_term search_in_html true) = Some c
                     /\ startswith c "Found in page URL: " = true)
          \/ context (verify_fetched (FetchOk text html sc final_url warn) url
                                     search_term search_in_html true)
             = Some "Domain found in page links")).
Proof.
  intros Ht Hh Hup.
  apply lower_fixed_settled in Ht, Hh.
  pose proof (str_in_lowercased _ _ Hup Ht) as Mt.
  pose proof (str_in_lowercased _ _ Hup Hh) as Mh.
  rewrite (scan_text_single_miss _ _ _ Mt), (scan_html_single_miss _ _ _ _ Mh).
  split; [reflexivity|]. split; [reflexivity|].
  rewrite verify_fetched_ok. unfold run_search, search_variations.
  rewrite (scan_text_single_miss _ _ _ Mt), (scan_html_single_miss _ _ _ _ Mh),
    (scan_url_single_sensitive _ _ _ Hup).
  unfold scan_links, result_of_scan. simpl.
  destruct search_in_html; simpl; [|discriminate].
  destruct (str_in (domain_label search_term) html
            && (3 <? len (domain_label search_term)))%bool; simpl.
  - intros _. split; [reflexivity|]. right. reflexivity.
  - discriminate.
Qed.

Lemma C9_case_sensitive_uppercase_witness :
  verified (verify_fetched
              (FetchOk "our partners"
                       "<a href='https://acmewidgets.io/partner'>partner</a>"
                       200 "https://host.test/links" None)
              "host.test/links" "AcmeWidgets.io" true true) = true
  /\ found_in (verify_fetched
                 (FetchOk "our partners"
                          "<a href='https://acmewidgets.io/partner'>partner</a>"
                          200 "https://host.test/links" None)
                 "host.test/links" "AcmeWidgets.io" true true) = Some "HTML/Links".
Proof.
  split; [reflexivity|].
  apply (C9_case_sensitive_uppercase_term
           "our partners" "<a href='https://acmewidgets.io/partner'>partner</a>"
           "https://host.test/links" 200 None "host.test/links" "AcmeWidgets.io" true);
    reflexivity.
Defined.

(** ** The domain-in-links check *)

Lemma run_search_links (vs : list string) (text html u term : string) (sh : bool) :
  run_search vs text html u term sh
  = scan_links sh term html (before_links vs text html u sh).
Proof. reflexivity. Qed.

(** C5, as the specification states it, fails: for the term
    "www.acmewidgets.io", searched case-sensitively on a page that links to
    https://acmewidgets.io/partner, the three earlier steps find nothing, the
    label "acmewidgets" is longer than three characters and occurs in the
    markup, and still nothing is reported. *)
Lemma C5_counterexample :
  found_in_text (before_links (search_variations "www.acmewidgets.io" true)
                   "our partners"
                   "<a href='https://acmewidgets.io/partner'>partner</a>"
                   "https://host.test/links" true) = false
  /\ found_in_html (before_links (search_variations "www.acmewidgets.io" true)
                      "our partners"
                      "<a href='https://acmewidgets.io/partner'>partner</a>"
                      "https://host.test/links" true) = false
  /\ spec_domain_label "www.acmewidgets.io" = "acmewidgets"
  /\ 3 < len (spec_domain_label "www.acmewidgets.io")
  /\ str_in (spec_domain_label "www.acmewidgets.io")
            "<a href='https://acmewidgets.io/partner'>partner</a>" = true
  /\ found_in (verify_fetched partner_page "host.test/links"
                              "www.acmewidgets.io" true true) = None
  /\ context (verify_fetched partner_page "host.test/links"
                             "www.acmewidgets.io" true true) = None
  /\ found_in (verify_fetched partner_page "host.test/links"
                              "www.acmewidgets.io" true true) <> Some "HTML/Links".
Proof. repeat split; try reflexivity. discriminate. Qed.

(** C5 (amended). In the last step the token is the lower-cased search term;
    only when it contains "http" are the protocol and [www.] substrings
    deleted and the segment before the first slash kept.  When the steps
    before found nothing and HTML search is on, the step reports
    "HTML/Links" with the context "Domain found in page links" as soon as the
    first dot-separated label of that token is longer than three characters
    and occurs in the markup.  For a term that starts with [www.] and
    contains no "http" the label is "www", and the step reports nothing. *)
Theorem C5_domain_in_links (search_term : string) :
  search_domain search_term
  = (if str_in "http" (lower search_term)
     then first (split_char "/"
                   (remove_all (remove_all (remove_all (lower search_term)
                                                       "https://")
                                           "http://") "www."))
     else lower search_term)
  /\ (forall (text html final_url : string) (sc : Z) (warn : option string)
             (url : string) (case_sensitive : bool),
         found_in_text (before_links (search_variations search_term case_sensitive)
                                     text html final_url true) = false ->
         found_in_html (before_links (search_variations search_term case_sensitive)
                                     text html final_url true) = false ->
         3 < len (domain_label search_term) ->
         str_in (domain_label search_term) html = true ->
         verified (verify_fetched (FetchOk text html sc final_url warn) url
                                  search_term true case_sensitive) = true
         /\ found_in (verify_fetched (FetchOk text html sc final_url warn) url
                                     search_term true case_sensitive)
            = Some "HTML/Links"
         /\ context (verify_fetched (FetchOk text html sc final_url warn) url
                                    search_term true case_sensitive)
            = Some "Domain found in page links"
         /\ found_variation (verify_fetched (FetchOk text html sc final_url warn)
                                            url search_term true case_sensitive)
            = Some (search_domain search_term))
  /\ (forall rest : string,
         search_term = "www." ++ rest ->
         str_in "http" (lower search_term) = false ->
         domain_label search_term = "www"
         /\ forall (search_in_html : bool) (html : string) (st : ScanState),
             scan_links search_in_html search_term html st = st).
Proof.
  split; [reflexivity|]. split.
  - intros text html final_url sc warn url cs Ht Hh Hlen Hin.
    rewrite verify_fetched_ok, run_search_links.
    unfold scan_links, result_of_scan. rewrite Ht, Hh, Hin.
    apply Z.ltb_lt in Hlen. rewrite Hlen. simpl.
    rewrite ?Ht. repeat split.
  - intros rest -> Hhttp.
    assert (Hlabel : domain_label ("www." ++ rest) = "www").
    { unfold domain_label, search_domain. rewrite Hhttp. reflexivity. }
    split; [exact Hlabel|].
    intros sh html st. unfold scan_links. rewrite Hlabel.
    replace (3 <? len "www") with false by reflexivity.
    rewrite andb_false_r. now destruct (_ && _)%bool.
Qed.

Lemma C5_domain_in_links_witness :
  found_in_text (before_links (search_variations "acme.io" false)
                   "our partners" "<a href='https://acme.com/'>acme</a>"
                   "https://host.test/links" true) = false
  /\ found_in_html (before_links (search_variations "acme.io" false)
                      "our partners" "<a href='https://acme.com/'>acme</a>"
                      "https://host.test/links" true) = false
  /\ verified (verify_fetched
                 (FetchOk "our partners" "<a href='https://acme.com/'>acme</a>"
                          200 "https://host.test/links" None)
                 "host.test/links" "acme.io" true false) = true
  /\ found_in (verify_fetched
                 (FetchOk "our partners" "<a href='https://acme.com/'>acme</a>"
                          200 "https://host.test/links" None)
                 "host.test/links" "acme.io" true false) = Some "HTML/Links"
  /\ context (verify_fetched
                (FetchOk "our partners" "<a href='https://acme.com/'>acme</a>"
                         200 "https://host.test/links" None)
                "host.test/links" "acme.io" true false)
     = Some "Domain found in page links"
  /\ found_variation (verify_fetched
                        (FetchOk "our partners" "<a href='https://acme.com/'>acme</a>"
                                 200 "https://host.test/links" None)
                        "host.test/links" "acme.io" true false)
     = Some (search_domain "acme.io").
Proof.
  split; [reflexivity|]. split; [reflexivity|].
  apply (proj1 (proj2 (C5_domain_in_links "acme.io"))
           "our partners" "<a href='https://acme.com/'>acme</a>"
           "https://host.test/links" 200 None "host.test/links" false);
    reflexivity.
Defined.

(** ** Page fetcher *)

Section Fetcher.

Variables (self : BacklinksVerifier) (net : Network).

Lemma fetch_loop_step (url : string) (max_retries : Z) (remaining : nat) (k : Z) :
  fetch_attempt self url max_retries k (net url k) = Continue ->
  fetch_loop self net url max_retries (S remaining) k
  = fetch_loop self net url max_retries remaining (k + 1).
Proof. intros H. simpl. now rewrite H. Qed.

Lemma fetch_from_step (url : string) (max_retries k : Z) :
  0 <= k < max_retries ->
  fetch_attempt self url max_retries k (net url k) = Continue ->
  fetch_from self net url max_retries k = fetch_from self net url max_retries (k + 1).
Proof.
  intros Hk Hc. unfold fetch_from.
  replace (Z.to_nat (max_retries - k)) with (S (Z.to_nat (max_retries - (k + 1))))
    by lia.
  now apply fetch_loop_step.
Qed.

Lemma fetch_from_return (url : string) (max_retries k : Z) (o : FetchOutcome) :
  0 <= k < max_retries ->
  fetch_attempt self url max_retries k (net url k) = Return o ->
  fetch_from self net url max_retries k = Returned o.
Proof.
  intros Hk Hr. unfold fetch_from.
  replace (Z.to_nat (max_retries - k)) with (S (Z.to_nat (max_retries - (k + 1))))
    by lia.
  simpl. now rewrite Hr.
Qed.

(** The loop reaches attempt [k] when all attempts before it were retried. *)
Lemma fetch_reaches (url : string) (max_retries k : Z) :
  0 <= k <= max_retries ->
  retried_until self net (normalize_url url) max_retries k ->
  fetch_page_content self net url max_retries
  = fetch_from self net (normalize_url url) max_retries k.
Proof.
  intros [Hk0 Hk]. revert Hk.
  pattern k. apply natlike_ind; [| |exact Hk0].
  - intros _ _. unfold fetch_page_content, fetch_from. now rewrite Z.sub_0_r.
  - intros j Hj IH Hle Hret. unfold Z.succ in *.
    rewrite IH; [|lia|intros i Hi; apply Hret; lia].
    apply fetch_from_step; [lia|]. apply Hret. lia.
Qed.

(** The test of the 403 branch is on the lower-cased text. *)
Lemma forbidden_content_lowered (r : Response) (body : string) :
  response_text r = Some body ->
  100 < len (lower body) ->
  forbidden_content r
  = Some (FetchOk (lower body) (lower body) 403 (resp_url r)
                  (Some "403 Forbidden but content was accessible")).
Proof.
  intros Ht Hl. unfold forbidden_content. rewrite Ht.
  assert (Hc : truthy (resp_content r) = true).
  { unfold response_text in Ht. destruct (truthy (resp_content r)); [reflexivity|].
    injection Ht as <-. vm_compute in Hl. discriminate Hl. }
  rewrite Hc. cbv zeta. apply Z.ltb_lt in Hl. now rewrite Hl.
Qed.

Lemma forbidden_content_long (r : Response) (body : string) :
  response_text r = Some body ->
  100 < len body ->
  forbidden_content r
  = Some (FetchOk (lower body) (lower body) 403 (resp_url r)
                  (Some "403 Forbidden but content was accessible")).
Proof.
  intros Ht Hl. apply forbidden_content_lowered; [exact Ht|].
  pose proof (len_lower_ge body). lia.
Qed.

Lemma forbidden_content_insufficient (r : Response) :
  insufficient_body r -> forbidden_content r = None.
Proof.
  unfold forbidden_content. intros [Ht | [body [Ht Hl]]].
  - rewrite Ht. now destruct (truthy _).
  - rewrite Ht. cbv zeta. apply Z.ltb_ge in Hl. rewrite Hl.
    now destruct (truthy _).
Qed.

(** A 403 response either has a usable body or an insufficient one. *)
Lemma forbidden_body_cases (r : Response) :
  (exists body : string, response_text r = Some body /\ 100 < len (lower body))
  \/ insufficient_body r.
Proof.
  unfold insufficient_body. destruct (response_text r) as [body|]; [|now right; left].
  destruct (Z_lt_le_dec 100 (len (lower body))).
  - left. now exists body.
  - right. right. now exists body.
Qed.

(** Every successful fetch hands lower-cased text and markup to the match. *)
Lemma fetch_attempt_lowercased (url : string) (max_retries k : Z) (ev : Attempt)
      (text html final_url : string) (sc : Z) (warn : option string) :
  fetch_attempt self url max_retries k ev
  = Return (FetchOk text html sc final_url warn) ->
  lower text = text /\ lower html = html.
Proof.
  assert (Hexc : forall msg resp,
             on_request_exception url max_retries k msg resp
             <> Return (FetchOk text html sc final_url warn)).
  { intros msg resp. unfold on_request_exception.
    destruct (k <? max_retries - 1); discriminate. }
  destruct ev as [r | | msg resp | msg]; simpl.
  - destruct (resp_status r =? 403).
    + destruct (forbidden_content r) as [o|] eqn:E.
      * intros H. injection H as ->. unfold forbidden_content in E.
        destruct (truthy (resp_content r)); [|discriminate E].
        destruct (response_text r) as [body|]; [|discriminate E].
        destruct (100 <? len (lower body)); [|discriminate E].
        injection E as <- <- _ _ _. split; apply lower_idempotent.
      * destruct (k <? max_retries - 1); discriminate.
    + destruct (resp_status r =? 429).
      * destruct (k <? max_retries - 1); discriminate.
      * destruct (raise_for_status r) as [msg|].
        -- intros H. now apply Hexc in H.
        -- intros H. injection H as <- <- _ _ _. split; apply lower_idempotent.
  - destruct (k <? max_retries - 1); discriminate.
  - intros H. now apply Hexc in H.
  - discriminate.
Qed.

Lemma fetch_loop_lowercased (url : string) (max_retries : Z) (remaining : nat)
      (k : Z) (text html final_url : string) (sc : Z) (warn : option string) :
  fetch_loop self net url max_retries remaining k
  = Returned (FetchOk text html sc final_url warn) ->
  lower text = text /\ lower html = html.
Proof.
  revert k; induction remaining as [|n IH]; intros k; simpl.
  - discriminate.
  - destruct (fetch_attempt self url max_retries k (net url k)) eqn:E.
    + apply IH.
    + intros H. injection H as ->. exact (fetch_attempt_lowercased _ _ _ _ _ _ _ _ _ E).
    + discriminate.
Qed.

Lemma fetch_page_content_lowercased (url : string) (max_retries : Z)
      (text html final_url : string) (sc : Z) (warn : option string) :
  fetch_page_content self net url max_retries
  = Returned (FetchOk text html sc final_url warn) ->
  lower text = text /\ lower html = html.
Proof. apply fetch_loop_lowercased. Qed.

End Fetcher.

(** C3, as the specification states it, fails: a 403 response whose decoded
    body has exactly 100 characters, the first of them the capital I with dot
    above, is lower-cased to 101 characters and is therefore returned as a
    success with the warning, on the first attempt. *)
Lemma C3_counterexample :
  response_text forbidden_dotted = Some dotted_body
  /\ len dotted_body = 100
  /\ len (lower dotted_body) = 101
  /\ fetch_page_content default_verifier (always forbidden_dotted) "host.test/a" 3
     = Returned (FetchOk (lower dotted_body) (lower dotted_body) 403
                         "https://host.test/a"
                         (Some "403 Forbidden but content was accessible")).
Proof. repeat split; vm_compute; reflexivity. Qed.

(** C3 (amended). When an attempt of the fetch receives status 403: with a
    body whose lower-cased text has more than 100 characters, which is the
    case of every body that decodes to more than 100 characters, the fetch
    succeeds with the lower-cased body as text and as markup, status 403 and
    the warning "403 Forbidden but content was accessible"; otherwise (no
    body, or a lower-cased text of at most 100 characters) the attempt is
    retried while attempts remain, and after the last attempt the fetch
    fails with status 403 and the message "403 Forbidden - Access denied". *)
Theorem C3_forbidden_response
        (self : BacklinksVerifier) (net : Network) (url : string)
        (max_retries k : Z) (r : Response) :
  0 <= k < max_retries ->
  retried_until self net (normalize_url url) max_retries k ->
  net (normalize_url url) k = Responded r ->
  resp_status r = 403 ->
  (forall body : string,
      response_text r = Some body ->
      100 < len (lower body) ->
      fetch_page_content self net url max_retries
      = Returned (FetchOk (lower body) (lower body) 403 (resp_url r)
                          (Some "403 Forbidden but content was accessible")))
  /\ (forall body : string,
      response_text r = Some body ->
      100 < len body ->
      100 < len (lower body))
  /\ (insufficient_body r ->
      (k < max_retries - 1 ->
       fetch_attempt self (normalize_url url) max_retries k
                     (net (normalize_url url) k) = Continue
       /\ fetch_page_content self net url max_retries
          = fetch_from self net (normalize_url url) max_retries (k + 1))
      /\ (k = max_retries - 1 ->
          fetch_page_content self net url max_retries
          = Returned (FetchFail "403 Forbidden - Access denied" (Some 403)
                                (normalize_url url)))).
Proof.
  intros Hk Hret Hnet Hst.
  rewrite (fetch_reaches self net url max_retries k); [|lia|exact Hret].
  split; [|split].
  - intros body Ht Hl. apply fetch_from_return; [exact Hk|].
    rewrite Hnet. unfold fetch_attempt. rewrite Hst. simpl.
    now rewrite (forbidden_content_lowered r body Ht Hl).
  - intros body _ Hl. pose proof (len_lower_ge body). lia.
  - intros Hins.
    assert (Hstep : fetch_attempt self (normalize_url url) max_retries k
                      (net (normalize_url url) k)
                    = if k <? max_retries - 1 then Continue
                      else Return (FetchFail "403 Forbidden - Access denied"
                                             (Some 403) (normalize_url url))).
    { rewrite Hnet. unfold fetch_attempt. rewrite Hst. simpl.
      now rewrite (forbidden_content_insufficient r Hins). }
    split.
    + intros Hlt. apply Z.ltb_lt in Hlt. rewrite Hlt in Hstep.
      split; [exact Hstep|]. now apply fetch_from_step.
    + intros Heq. apply fetch_from_return; [exact Hk|].
      rewrite Hstep. replace (k <? max_retries - 1) with false; [reflexivity|].
      symmetry. apply Z.ltb_ge. lia.
Qed.

Lemma C3_forbidden_response_witness :
  len (lower "<html><body>Access denied.</body></html>") = 40
  /\ fetch_page_content default_verifier (always forbidden_short) "host.test/a" 3
     = Returned (FetchFail "403 Forbidden - Access denied" (Some 403)
                           "https://host.test/a")
  /\ fetch_page_content default_verifier (always forbidden_long) "host.test/a" 3
     = Returned (FetchOk
                   (lower "<html><body><p>Our partner Example.com is listed on this page of the directory, see www.example.com today</p></body></html>")
                   (lower "<html><body><p>Our partner Example.com is listed on this page of the directory, see www.example.com today</p></body></html>")
                   403 "https://host.test/a"
                   (Some "403 Forbidden but content was accessible")).
Proof.
  split; [reflexivity|]. split.
  - refine (proj2 (proj2 (proj2 (C3_forbidden_response default_verifier
                                   (always forbidden_short) "host.test/a" 3 2
                                   forbidden_short _ _ _ _)) _) _).
    + lia.
    + intros i Hi. assert (i = 0 \/ i = 1) as [-> | ->] by lia; reflexivity.
    + reflexivity.
    + reflexivity.
    + right. exists "<html><body>Access denied.</body></html>".
      split; [reflexivity | vm_compute; discriminate].
    + reflexivity.
  - refine (proj1 (C3_forbidden_response default_verifier
                     (always forbidden_long) "host.test/a" 3 0
                     forbidden_long _ _ _ _) _ _ _).
    + lia.
    + intros i Hi. lia.
    + reflexivity.
    + reflexivity.
    + reflexivity.
    + reflexivity.
Defined.

(** ** Batch orchestrator *)

Section Batch.

Variables (self : BacklinksVerifier) (net : Network).
Variables (search_term : string) (search_in_html case_sensitive : bool).

Lemma sequential_loop_map (urls : list string) (results : list BacklinkResult) :
  sequential_loop self net search_term search_in_html case_sensitive urls results
  = (results ++ List.map (checked_backlink self net search_term search_in_html case_sensitive)
      (submitted urls))%list.
Proof.
  revert results; induction urls as [|u urls IH]; intros results; simpl.
  - now rewrite app_nil_r.
  - unfold submitted in *. simpl. destruct (truthy (strip u)); simpl.
    + rewrite IH, <- app_assoc. reflexivity.
    + apply IH.
Qed.

Lemma completed_loop_map (futures : list string) (results : list BacklinkResult) :
  completed_loop self net search_term search_in_html case_sensitive futures results
  = (results ++ List.map (checked_backlink self net search_term search_in_html case_sensitive)
      futures)%list.
Proof.
  revert results; induction futures as [|u futures IH]; intros results; simpl.
  - now rewrite app_nil_r.
  - rewrite IH, <- app_assoc. reflexivity.
Qed.

Lemma checked_backlink_url (u : string) : url (checked_backlink self net search_term search_in_html case_sensitive u) = u.
Proof.
  unfold checked_backlink, verify_backlink.
  destruct (fetch_page_content self net u 3) as [o | msg]; [|reflexivity].
  destruct o; reflexivity.
Qed.

Lemma checked_backlink_raised (u msg : string) :
  verify_backlink self net u search_term search_in_html case_sensitive = Raised msg ->
  checked_backlink self net search_term search_in_html case_sensitive u
  = processing_error u search_term msg.
Proof. intros H. unfold checked_backlink. now rewrite H. Qed.

End Batch.

Lemma as_completed_in_order {A : Type} (pre fs : list A) :
  List.flat_map (fun i => match List.nth_error (pre ++ fs) i with
                          | Some f => [f]
                          | None => []
                          end)
                (List.seq (List.length pre) (List.length fs)) = fs.
Proof.
  revert pre; induction fs as [|a fs IH]; intros pre; simpl; [reflexivity|].
  rewrite nth_error_app2, Nat.sub_diag by lia. simpl. f_equal.
  specialize (IH (pre ++ [a])%list).
  rewrite <- app_assoc, length_app in IH. simpl in IH.
  rewrite Nat.add_1_r in IH. exact IH.
Qed.

(** Each future is yielded once when [order] lists each position once. *)
Lemma as_completed_permutation {A : Type} (order : list nat) (fs : list A) :
  Permutation order (List.seq 0 (List.length fs)) ->
  Permutation (as_completed order fs) fs.
Proof.
  intros H. unfold as_completed.
  rewrite (Permutation_flat_map _ H).
  pose proof (as_completed_in_order [] fs) as E. simpl in E.
  now rewrite E.
Qed.

Lemma summarize_total (results : list BacklinkResult) :
  total_urls (summarize results) = Z.of_nat (List.length results).
Proof. reflexivity. Qed.

(** C6. The batch returns one result for each URL that has text, none
    dropped and none twice, in input order when run sequentially and in
    completion order otherwise; a URL whose check raises contributes an
    unverified result whose error starts with "Processing error: ", and the
    batch goes on. *)
Theorem C6_one_result_per_url
        (self : BacklinksVerifier) (net : Network) (order : list nat)
        (urls : list string) (search_term : string)
        (search_in_html case_sensitive : bool) (max_workers : Z)
        (use_browser_arg : bool) :
  1 <= max_workers ->
  (use_browser_arg = true -> use_browser self = true) ->
  Permutation order (List.seq 0 (List.length (submitted urls))) ->
  exists results : list BacklinkResult,
    verify_multiple_backlinks self net order urls search_term search_in_html
                              case_sensitive max_workers use_browser_arg
    = Returned results
    /\ Permutation results
         (List.map (checked_backlink self net search_term search_in_html
                                     case_sensitive) (submitted urls))
    /\ Permutation (List.map url results) (submitted urls)
    /\ List.length results = List.length (List.filter nonblank urls)
    /\ total_urls (summarize results)
       = Z.of_nat (List.length (List.filter nonblank urls))
    /\ (Z.min (if use_browser self then 1 else max_workers) 3 = 1 ->
        results = List.map (checked_backlink self net search_term search_in_html
                                             case_sensitive) (submitted urls))
    /\ (forall u msg : string,
           In u (submitted urls) ->
           verify_backlink self net u search_term search_in_html case_sensitive
           = Raised msg ->
           In (processing_error u search_term msg) results
           /\ verified (processing_error u search_term msg) = false
           /\ error (processing_error u search_term msg)
              = Some ("Processing error: " ++ msg)).
Proof.
  intros Hw Hb Hperm.
  set (check := checked_backlink self net search_term search_in_html case_sensitive).
  assert (Hgen : forall results,
             Permutation results (List.map check (submitted urls)) ->
             (Z.min (if use_browser self then 1 else max_workers) 3 = 1 ->
              results = List.map check (submitted urls)) ->
             Permutation results (List.map check (submitted urls))
             /\ Permutation (List.map url results) (submitted urls)
             /\ List.length results = List.length (List.filter nonblank urls)
             /\ total_urls (summarize results)
                = Z.of_nat (List.length (List.filter nonblank urls))
             /\ (Z.min (if use_browser self then 1 else max_workers) 3 = 1 ->
                 results = List.map check (submitted urls))
             /\ (forall u msg : string,
                    In u (submitted urls) ->
                    verify_backlink self net u search_term search_in_html
                                    case_sensitive = Raised msg ->
                    In (processing_error u search_term msg) results
                    /\ verified (processing_error u search_term msg) = false
                    /\ error (processing_error u search_term msg)
                       = Some ("Processing error: " ++ msg))).
  { intros results HP Hseq.
    assert (Hlen : List.length results = List.length (List.filter nonblank urls)).
    { rewrite (Permutation_length HP), length_map. unfold submitted.
      now rewrite length_map. }
    split; [exact HP|]. split.
    - rewrite (Permutation_map url HP), map_map.
      rewrite (map_ext _ (fun u => u)); [now rewrite map_id|].
      intros u. apply checked_backlink_url.
    - split; [exact Hlen|]. split; [now rewrite summarize_total, Hlen|].
      split; [exact Hseq|].
      intros u msg Hin Hraise. split; [|split; reflexivity].
      apply (Permutation_in _ (Permutation_sym HP)).
      rewrite <- (checked_backlink_raised _ _ _ _ _ _ _ Hraise).
      now apply in_map. }
  unfold verify_multiple_backlinks.
  destruct (use_browser_arg && negb (use_browser self))%bool eqn:Eb.
  { apply andb_true_iff in Eb as [E1 E2]. rewrite (Hb E1) in E2. discriminate E2. }
  destruct (Z.min (if use_browser self then 1 else max_workers) 3 =? 1) eqn:E1.
  - eexists. split; [reflexivity|].
    rewrite sequential_loop_map. simpl. apply Hgen; [apply Permutation_refl | reflexivity].
  - assert (Hpos : (Z.min (if use_browser self then 1 else max_workers) 3 <=? 0) = false).
    { apply Z.leb_gt. destruct (use_browser self); lia. }
    rewrite Hpos. eexists. split; [reflexivity|].
    rewrite completed_loop_map. simpl. apply Hgen.
    + apply Permutation_map. now apply as_completed_permutation.
    + intros H. apply Z.eqb_neq in E1. contradiction.
Qed.

Lemma C6_one_result_per_url_witness :
  exists results : list BacklinkResult,
    verify_multiple_backlinks default_verifier sample_net (List.rev (List.seq 0 5))
                              sample_urls "example.com" true false 3 false
    = Returned results
    /\ List.length results = 5%nat
    /\ total_urls (summarize results) = 5
    /\ In (processing_error "https://c.test/" "example.com" "codec failure") results.
Proof.
  destruct (C6_one_result_per_url default_verifier sample_net
              (List.rev (List.seq 0 5)) sample_urls "example.com" true false 3 false)
    as [results [Hrun [_ [_ [Hlen [Htotal [_ Herr]]]]]]].
  - lia.
  - discriminate.
  - apply Permutation_sym. exact (Permutation_rev (List.seq 0 5)).
  - exists results. split; [exact Hrun|]. split; [exact Hlen|].
    split; [exact Htotal|].
    apply (Herr "https://c.test/" "codec failure").
    + vm_compute. tauto.
    + reflexivity.
Defined.

(** ** Summary of a batch *)

Lemma sum_ones_from {A : Type} (p : A -> bool) (xs : list A) (acc : Z) :
  List.fold_left (fun acc r => if p r then acc + 1 else acc) xs acc
  = acc + count p xs.
Proof.
  unfold count. revert acc; induction xs as [|x xs IH]; intros acc; simpl.
  - lia.
  - rewrite IH. destruct (p x); simpl; lia.
Qed.

Lemma sum_ones_count {A : Type} (p : A -> bool) (xs : list A) :
  sum_ones p xs = count p xs.
Proof. unfold sum_ones. now rewrite sum_ones_from. Qed.

(** C7, as the specification states it, fails twice.  With 23 verified
    results out of 80 the exact percentage is 28.75: the specification's
    formula gives 28.8 and the code, which divides first and multiplies by
    100 afterwards, gives 28.7.  And a result whose error message is present
    but empty is not counted as an error. *)
Lemma C7_counterexample :
  (total_urls (summarize batch_23_of_80) = 80
   /\ verified_count (summarize batch_23_of_80) = 23
   /\ tenths (spec_rate 23 80) = 288
   /\ exact_tenths 23 80 = 288
   /\ tenths (success_rate (summarize batch_23_of_80)) = 287
   /\ success_rate (summarize batch_23_of_80) <> spec_rate 23 80)
  /\ (present (error (checked_backlink default_verifier silent_failure
                                       "example.com" true false "https://a.test/"))
      = true
      /\ error_count (summarize [checked_backlink default_verifier silent_failure
                                   "example.com" true false "https://a.test/"]) = 0
      /\ count (fun r => present (error r))
               [checked_backlink default_verifier silent_failure
                                 "example.com" true false "https://a.test/"] = 1).
Proof.
  split.
  - repeat split; try (vm_compute; reflexivity).
    vm_compute. discriminate.
  - repeat split.
Qed.

(** C7 (amended). The summary counts the results, those that are verified
    and those whose error message is present and not empty; the success rate
    is the integer 0 for an empty batch and otherwise the float
    [round((verified_count / total_count) * 100, 1)], the quotient being
    taken first. *)
Theorem C7_summary (results : list BacklinkResult) :
  total_urls (summarize results) = Z.of_nat (List.length results)
  /\ verified_count (summarize results) = count verified results
  /\ error_count (summarize results)
     = count (fun r => truthy_opt (error r)) results
  /\ (total_urls (summarize results) = 0 ->
      success_rate (summarize results) = PyInt 0)
  /\ (total_urls (summarize results) <> 0 ->
      success_rate (summarize results)
      = PyFloat (Float64.round1
                   (Float64.mul
                      (Float64.true_divide (count verified results)
                                           (Z.of_nat (List.length results)))
                      (Float64.of_int 100)))).
Proof.
  unfold summarize; simpl. rewrite !sum_ones_count.
  repeat split.
  - intros H. unfold rate. rewrite H. reflexivity.
  - intros H. unfold rate.
    replace (0 <? Z.of_nat (List.length results)) with true; [reflexivity|].
    symmetry. apply Z.ltb_lt. lia.
Qed.

Lemma C7_summary_witness :
  total_urls (summarize batch_23_of_80) <> 0
  /\ success_rate (summarize batch_23_of_80)
     = PyFloat (Float64.round1
                  (Float64.mul
                     (Float64.true_divide (count verified batch_23_of_80)
                                          (Z.of_nat (List.length batch_23_of_80)))
                     (Float64.of_int 100)))
  /\ total_urls (summarize []) = 0
  /\ success_rate (summarize []) = PyInt 0.
Proof.
  split; [vm_compute; discriminate|]. split.
  - apply (proj2 (proj2 (proj2 (proj2 (C7_summary batch_23_of_80))))).
    vm_compute; discriminate.
  - split; [reflexivity|].
    apply (proj1 (proj2 (proj2 (proj2 (C7_summary []))))). reflexivity.
Defined.



(** * Further properties of the match engine *)

Section Slices.

Lemma length_take (n : nat) (s : string) : (String.length (take n s) <= n)%nat.
Proof.
  revert s; induction n as [|n IH]; intros [|c s]; simpl; try lia.
  specialize (IH s). lia.
Qed.

Lemma len_slice_to (s : string) (b : Z) : 0 <= b -> len (slice_to s b) <= b.
Proof.
  intros Hb. unfold slice_to, slice, len.
  pose proof (length_take
                (Z.to_nat (slice_bound s b - slice_bound s 0))
                (drop (Z.to_nat (slice_bound s 0)) s)) as H.
  assert (H0 : slice_bound s 0 = 0) by (unfold slice_bound, len; simpl; lia).
  assert (H1 : slice_bound s b <= b).
  { unfold slice_bound. destruct (b <? 0) eqn:E; [apply Z.ltb_lt in E|]; lia. }
  rewrite H0 in *. lia.
Qed.

End Slices.

(** X1. A context, when present, never has more than 500 characters. *)
Theorem context_at_most_500
        (o : FetchOutcome) (url search_term : string)
        (search_in_html case_sensitive : bool) (c : string) :
  context (verify_fetched o url search_term search_in_html case_sensitive) = Some c ->
  len c <= 500.
Proof.
  destruct o as [text html sc u w | e sc u]; [|discriminate].
  rewrite verify_fetched_ok. unfold result_of_scan; simpl.
  destruct (cur_context _) as [c0|]; simpl; [|discriminate].
  destruct (truthy c0); [|discriminate].
  intros H. injection H as <-. now apply len_slice_to.
Qed.

Lemma context_at_most_500_witness :
  context (verify_fetched partner_page "host.test/links" "acmewidgets" true false)
  = Some "HTML: partner"
  /\ len "HTML: partner" <= 500.
Proof.
  split; [reflexivity|].
  apply (context_at_most_500 partner_page "host.test/links" "acmewidgets" true false).
  reflexivity.
Defined.

Section Variations.

Lemma existsb_eqb_In (x : string) (seen : list string) :
  existsb (String.eqb x) seen = true <-> In x seen.
Proof.
  rewrite existsb_exists. split.
  - intros [y [Hy E]]. apply String.eqb_eq in E. now subst.
  - intros H. exists x. split; [exact H | apply String.eqb_refl].
Qed.

Lemma fromkeys_from_In (x : string) (seen xs : list string) :
  In x (fromkeys_from seen xs) <-> In x xs /\ ~ In x seen.
Proof.
  revert seen; induction xs as [|y xs IH]; intros seen; simpl.
  - tauto.
  - destruct (existsb (String.eqb y) seen) eqn:E.
    + apply existsb_eqb_In in E. rewrite IH. split.
      * tauto.
      * intros [[-> | H] Hn]; tauto.
    + assert (Hy : ~ In y seen).
      { intros H. apply existsb_eqb_In in H. congruence. }
      simpl. rewrite IH. simpl. split.
      * intros [-> | [H Hn]]; tauto.
      * intros [[-> | H] Hn]; [tauto|].
        destruct (string_dec y x) as [-> | Hne]; [tauto|]. right. tauto.
Qed.

Lemma fromkeys_from_NoDup (seen xs : list string) :
  NoDup (fromkeys_from seen xs).
Proof.
  revert seen; induction xs as [|y xs IH]; intros seen; simpl.
  - constructor.
  - destruct (existsb (String.eqb y) seen); [apply IH|].
    constructor; [|apply IH].
    rewrite fromkeys_from_In. simpl. tauto.
Qed.

Lemma dict_fromkeys_In (x : string) (xs : list string) :
  In x (dict_fromkeys xs) <-> In x xs.
Proof. unfold dict_fromkeys. rewrite fromkeys_from_In. simpl. tauto. Qed.

Lemma search_variations_head (search_term : string) (case_sensitive : bool) :
  hd_error (search_variations search_term case_sensitive)
  = Some (if case_sensitive then search_term else lower search_term).
Proof.
  unfold search_variations. destruct case_sensitive; [reflexivity|].
  destruct (existsb _ url_indicators); [|reflexivity].
  destruct (str_in "." _); [|reflexivity].
  destruct (2 <=? _); reflexivity.
Qed.

End Variations.

(** X2. The list of variations never repeats an entry and always starts with
    the term itself, lower-cased unless the search is case-sensitive. *)
Theorem search_variations_nodup_head (search_term : string) (case_sensitive : bool) :
  NoDup (search_variations search_term case_sensitive)
  /\ hd_error (search_variations search_term case_sensitive)
     = Some (if case_sensitive then search_term else lower search_term)
  /\ In (if case_sensitive then search_term else lower search_term)
        (search_variations search_term case_sensitive).
Proof.
  split; [|split].
  - unfold search_variations. destruct case_sensitive.
    + constructor; [simpl; tauto | constructor].
    + apply fromkeys_from_NoDup.
  - apply search_variations_head.
  - pose proof (search_variations_head search_term case_sensitive) as H.
    destruct (search_variations search_term case_sensitive); [discriminate|].
    injection H as ->. now left.
Qed.

Section SearchSteps.

Variables (text html final_url search_term : string) (search_in_html : bool).

(** The flags after each step, from the flags before it. *)
Lemma scan_text_flags (vs : list string) (st : ScanState) :
  found_in_text (scan_text vs text st)
  = (found_in_text st || existsb (fun v => str_in v text) vs)%bool
  /\ found_in_html (scan_text vs text st) = found_in_html st.
Proof.
  induction vs as [|v vs [IH1 IH2]]; simpl.
  - now rewrite orb_false_r.
  - destruct (str_in v text); simpl.
    + now rewrite orb_true_r.
    + auto.
Qed.

Lemma scan_html_loop_flags (vs : list string) (st : ScanState) :
  found_in_text (scan_html_loop vs html st) = found_in_text st
  /\ found_in_html (scan_html_loop vs html st)
     = (found_in_html st || existsb (fun v => str_in v html) vs)%bool.
Proof.
  induction vs as [|v vs [IH1 IH2]]; simpl.
  - now rewrite orb_false_r.
  - destruct (str_in v html); simpl.
    + now rewrite orb_true_r.
    + auto.
Qed.

Lemma scan_url_loop_flags (vs : list string) (u : string) (st : ScanState) :
  found_in_text (scan_url_loop vs u st) = found_in_text st
  /\ found_in_html (scan_url_loop vs u st)
     = (found_in_html st || existsb (fun v => str_in v u) vs)%bool.
Proof.
  induction vs as [|v vs [IH1 IH2]]; simpl.
  - now rewrite orb_false_r.
  - destruct (str_in v u); simpl.
    + now rewrite orb_true_r.
    + auto.
Qed.

Lemma run_search_flags (vs : list string) :
  found_in_text (run_search vs text html final_url search_term search_in_html)
  = existsb (fun v => str_in v text) vs
  /\ found_in_html (run_search vs text html final_url search_term search_in_html)
     = (negb (existsb (fun v => str_in v text) vs)
        && ((search_in_html && existsb (fun v => str_in v html) vs)
            || existsb (fun v => str_in v (lower final_url)) vs
            || (search_in_html
                && str_in (domain_label search_term) html
                && (3 <? len (domain_label search_term)))))%bool.
Proof.
  unfold run_search, scan_links, scan_url, scan_html.
  destruct (scan_text_flags vs scan_init) as [T1 T2]. simpl in T1, T2.
  set (s1 := scan_text vs text scan_init) in *.
  rewrite T1.
  destruct (existsb (fun v => str_in v text) vs) eqn:Et; simpl.
  - rewrite T1, T2. simpl. rewrite T1. simpl. auto.
  - destruct search_in_html; simpl.
    + destruct (scan_html_loop_flags vs s1) as [H1 H2]. rewrite T1 in H1. rewrite T2 in H2.
      simpl in H2. set (s2 := scan_html_loop vs html s1) in *.
      rewrite H1, H2.
      destruct (existsb (fun v => str_in v html) vs) eqn:Eh; simpl.
      * rewrite H1, H2. auto.
      * destruct (scan_url_loop_flags vs (lower final_url) s2) as [U1 U2].
        rewrite H1 in U1. rewrite H2 in U2. simpl in U2.
        set (s3 := scan_url_loop vs (lower final_url) s2) in *.
        rewrite U1, U2.
        destruct (existsb (fun v => str_in v (lower final_url)) vs); simpl.
        -- rewrite U1, U2. auto.
        -- destruct (str_in (domain_label search_term) html
                     && (3 <? len (domain_label search_term)))%bool eqn:El;
             simpl; rewrite ?U1, ?U2; auto.
    + rewrite T1, T2. simpl.
      destruct (scan_url_loop_flags vs (lower final_url) s1) as [U1 U2].
      rewrite T1 in U1. rewrite T2 in U2. simpl in U2.
      rewrite andb_false_r. rewrite U1, U2.
      now rewrite orb_false_r.
Qed.

End SearchSteps.

(** X3. On a fetched page the result is verified exactly when a variation
    occurs in the text, or (HTML search on) in the markup, or in the
    lower-cased final URL, or (HTML search on) the first label of the domain
    token is longer than three characters and occurs in the markup. *)
Theorem verified_characterisation
        (text html final_url : string) (sc : Z) (warn : option string)
        (url search_term : string) (search_in_html case_sensitive : bool) :
  verified (verify_fetched (FetchOk text html sc final_url warn) url search_term
                           search_in_html case_sensitive)
  = (existsb (fun v => str_in v text)
             (search_variations search_term case_sensitive)
     || (search_in_html
         && existsb (fun v => str_in v html)
                    (search_variations search_term case_sensitive))
     || existsb (fun v => str_in v (lower final_url))
                (search_variations search_term case_sensitive)
     || (search_in_html
         && str_in (domain_label search_term) html
         && (3 <? len (domain_label search_term))))%bool.
Proof.
  rewrite verify_fetched_ok. unfold result_of_scan; simpl.
  destruct (run_search_flags text html final_url search_term search_in_html
              (search_variations search_term case_sensitive)) as [-> ->].
  destruct (existsb (fun v => str_in v text) _); reflexivity.
Qed.

Section TextPriority.

Lemma scan_text_first (pre post : list string) (v text : string) (st : ScanState) :
  Forall (fun p => str_in p text = false) pre ->
  str_in v text = true ->
  scan_text (pre ++ v :: post) text st
  = mkScan true (found_in_html st) (text_context text v (cur_context st)) (Some v).
Proof.
  intros Hpre Hv. induction Hpre as [|p pre Hp _ IH]; simpl.
  - now rewrite Hv.
  - now rewrite Hp.
Qed.

Lemma later_steps_keep_text (vs : list string) (html u term : string) (sh : bool)
      (st : ScanState) :
  found_in_text st = true ->
  scan_links sh term html (scan_url vs u (scan_html sh vs html st)) = st.
Proof.
  intros H. unfold scan_links, scan_url, scan_html. rewrite H. simpl.
  rewrite H. simpl. now rewrite H.
Qed.

End TextPriority.

(** X4. The page text has priority and the first variation wins: when [v] is
    the first variation, in generation order, that occurs in the text, the
    result is verified in "Page Text" with [v] as matched variation, whatever
    the markup, the final URL and the HTML flag are. *)
Theorem text_match_first_variation_wins
        (text html final_url : string) (sc : Z) (warn : option string)
        (url search_term : string) (search_in_html case_sensitive : bool)
        (pre post : list string) (v : string) :
  search_variations search_term case_sensitive = (pre ++ v :: post)%list ->
  Forall (fun p => str_in p text = false) pre ->
  str_in v text = true ->
  verify_fetched (FetchOk text html sc final_url warn) url search_term
                 search_in_html case_sensitive
  = mkResult url search_term true None (Some sc) (Some "Page Text")
             (limit_context (text_context text v None)) (Some v) warn.
Proof.
  intros Hvs Hpre Hv. rewrite verify_fetched_ok. unfold run_search.
  rewrite Hvs, (scan_text_first pre post v text scan_init Hpre Hv).
  rewrite later_steps_keep_text by reflexivity. reflexivity.
Qed.

Lemma text_match_first_variation_wins_witness :
  verify_fetched (FetchOk "read more at example.com" "<p>www.example.com</p>" 200
                          "https://www.example.com/" None)
                 "www.example.com" "Example.COM" true false
  = mkResult "www.example.com" "Example.COM" true None (Some 200) (Some "Page Text")
             (limit_context (text_context "read more at example.com" "example.com" None))
             (Some "example.com") None.
Proof.
  apply (text_match_first_variation_wins
           "read more at example.com" "<p>www.example.com</p>"
           "https://www.example.com/" 200 None "www.example.com" "Example.COM"
           true false [] (List.tl (search_variations "Example.COM" false))
           "example.com").
  - vm_compute. reflexivity.
  - constructor.
  - vm_compute. reflexivity.
Defined.

(** X5. With HTML search switched off the markup is never consulted: two
    pages that differ only in their markup give the same result. *)
Theorem markup_ignored_without_html_search
        (text html html' final_url : string) (sc : Z) (warn : option string)
        (url search_term : string) (case_sensitive : bool) :
  verify_fetched (FetchOk text html sc final_url warn) url search_term false
                 case_sensitive
  = verify_fetched (FetchOk text html' sc final_url warn) url search_term false
                   case_sensitive.
Proof.
  rewrite !verify_fetched_ok. unfold run_search, scan_links, scan_html.
  now rewrite !andb_false_r.
Qed.

Section Flags.

Variables (search_term : string) (search_in_html : bool).

Lemma scan_init_flagged : scan_flagged scan_init.
Proof. split; reflexivity. Qed.

Lemma scan_text_flagged (vs : list string) (text : string) (st : ScanState) :
  found_in_html st = false -> scan_flagged st -> scan_flagged (scan_text vs text st).
Proof.
  intros Hh Hst. induction vs as [|v vs IH]; simpl; [exact Hst|].
  destruct (str_in v text); [|exact IH].
  split; simpl; [reflexivity | now rewrite Hh].
Qed.

Lemma scan_html_flagged (vs : list string) (html : string) (st : ScanState) :
  scan_flagged st -> scan_flagged (scan_html search_in_html vs html st).
Proof.
  intros Hst. unfold scan_html.
  destruct (found_in_text st) eqn:Et; simpl; [exact Hst|].
  destruct search_in_html; [|exact Hst].
  induction vs as [|v vs IH]; simpl; [exact Hst|].
  destruct (str_in v html); [|exact IH].
  split; simpl; rewrite ?Et; reflexivity.
Qed.

Lemma scan_url_flagged (vs : list string) (u : string) (st : ScanState) :
  scan_flagged st -> scan_flagged (scan_url vs u st).
Proof.
  intros Hst. unfold scan_url.
  destruct (found_in_text st) eqn:Et; simpl; [exact Hst|].
  destruct (found_in_html st); simpl; [exact Hst|].
  induction vs as [|v vs IH]; simpl; [exact Hst|].
  destruct (str_in v (lower u)); [|exact IH].
  split; simpl; rewrite ?Et; reflexivity.
Qed.

Lemma scan_links_flagged (html : string) (st : ScanState) :
  scan_flagged st -> scan_flagged (scan_links search_in_html search_term html st).
Proof.
  intros Hst. unfold scan_links.
  destruct (found_in_text st) eqn:Et; simpl; [exact Hst|].
  destruct (found_in_html st); simpl; [exact Hst|].
  destruct search_in_html; [|exact Hst].
  destruct (_ && _)%bool; [|exact Hst].
  split; simpl; rewrite ?Et; reflexivity.
Qed.

Lemma run_search_flagged (vs : list string) (text html u : string) :
  scan_flagged (run_search vs text html u search_term search_in_html).
Proof.
  unfold run_search.
  apply scan_links_flagged, scan_url_flagged, scan_html_flagged,
    scan_text_flagged; [reflexivity | apply scan_init_flagged].
Qed.

End Flags.

(** X6. Every result of the match names its evidence consistently: a matched
    variation is reported exactly when the result is verified, the location
    is absent, "Page Text" or "HTML/Links", and a result that comes from a
    fetched page carries no error while one from a failed fetch carries the
    error and no variation. *)
Theorem result_evidence_consistent
        (o : FetchOutcome) (url search_term : string)
        (search_in_html case_sensitive : bool) :
  present (found_variation (verify_fetched o url search_term search_in_html
                                           case_sensitive))
  = verified (verify_fetched o url search_term search_in_html case_sensitive)
  /\ (found_in (verify_fetched o url search_term search_in_html case_sensitive) = None
      \/ found_in (verify_fetched o url search_term search_in_html case_sensitive)
         = Some "Page Text"
      \/ found_in (verify_fetched o url search_term search_in_html case_sensitive)
         = Some "HTML/Links")
  /\ present (error (verify_fetched o url search_term search_in_html case_sensitive))
     = negb (success o).
Proof.
  destruct o as [text html sc u w | e sc u].
  - rewrite verify_fetched_ok. unfold result_of_scan; simpl.
    destruct (run_search_flagged search_term search_in_html
                (search_variations search_term case_sensitive) text html u)
      as [H1 H2].
    destruct (run_search _ text html u search_term search_in_html)
      as [ft fh ctx var]; simpl in *.
    split; [symmetry; exact H1|]. split; [|reflexivity].
    destruct ft, fh; auto.
  - simpl. auto.
Qed.

Section CaseFolding.

(** On the characters below U+0080 lower-casing gives one character, and
    the upper-case form, the lower-case form and the cased property of a
    character are those of its lower-case form. *)
Lemma ascii_char_folding (c : ascii) :
  Nat.ltb (code c) 128 = true ->
  lower_full c = String (lower_char c) EmptyString
  /\ upper_char (lower_char c) = upper_char c
  /\ lower_full (lower_char c) = lower_full c
  /\ is_cased (lower_char c) = is_cased c.
Proof.
  destruct c as [[] [] [] [] [] [] [] []]; intros H;
    try (vm_compute in H; discriminate H); repeat split; reflexivity.
Qed.

Lemma upper_lower (s : string) : is_ascii s = true -> upper (lower s) = upper s.
Proof.
  induction s as [|c s IH]; [reflexivity|].
  intros H. cbn [is_ascii] in H. apply andb_prop in H as [Hc Hs].
  destruct (ascii_char_folding c Hc) as (Hf & Hu & _ & _).
  cbn [lower]. rewrite Hf. cbn [append upper]. now rewrite Hu, (IH Hs).
Qed.

Lemma title_from_lower (b : bool) (s : string) :
  is_ascii s = true -> title_from b (lower s) = title_from b s.
Proof.
  revert b; induction s as [|c s IH]; intros b; [reflexivity|].
  intros H. cbn [is_ascii] in H. apply andb_prop in H as [Hc Hs].
  destruct (ascii_char_folding c Hc) as (Hf & Hu & Hl & Hcased).
  cbn [lower]. rewrite Hf. cbn [append title_from].
  now rewrite Hcased, (IH _ Hs), Hu, Hl.
Qed.

Lemma upper_of_lower_eq (s t : string) :
  is_ascii s = true -> is_ascii t = true ->
  lower s = lower t -> upper s = upper t.
Proof.
  intros Hs Ht H. now rewrite <- (upper_lower s Hs), <- (upper_lower t Ht), H.
Qed.

Lemma title_of_lower_eq (s t : string) :
  is_ascii s = true -> is_ascii t = true ->
  lower s = lower t -> title s = title t.
Proof.
  intros Hs Ht H. unfold title.
  now rewrite <- (title_from_lower false s Hs), <- (title_from_lower false t Ht), H.
Qed.

End CaseFolding.

(** X7. A case-insensitive search does not depend on the case in which an
    ASCII term is written: two terms of characters below U+0080 with the
    same lower-case form have the same variations and give, on every fetch
    outcome, results that differ only in the [search_term] field they
    echo. *)
Theorem case_insensitive_in_the_term
        (o : FetchOutcome) (url term term' : string) (search_in_html : bool) :
  is_ascii term = true ->
  is_ascii term' = true ->
  lower term = lower term' ->
  search_variations term false = search_variations term' false
  /\ verify_fetched o url term search_in_html false
     = with_search_term (verify_fetched o url term' search_in_html false) term.
Proof.
  intros Ha Ha' H.
  assert (Hv : search_variations term false = search_variations term' false).
  { unfold search_variations.
    now rewrite H, (upper_of_lower_eq _ _ Ha Ha' H), (title_of_lower_eq _ _ Ha Ha' H). }
  split; [exact Hv|].
  destruct o as [text html sc u w | e sc u]; [|reflexivity].
  rewrite !verify_fetched_ok, Hv.
  assert (Hl : forall st, scan_links search_in_html term html st
                          = scan_links search_in_html term' html st).
  { intros st. unfold scan_links, domain_label, search_domain. now rewrite H. }
  unfold run_search. rewrite Hl. reflexivity.
Qed.

Lemma case_insensitive_in_the_term_witness :
  lower "Example.COM" = lower "example.com"
  /\ search_variations "Example.COM" false = search_variations "example.com" false.
Proof.
  split; [reflexivity|].
  apply (case_insensitive_in_the_term partner_page "host.test/links"
           "Example.COM" "example.com" true); reflexivity.
Defined.

(** * Further properties of the page fetcher *)

(** X8. A normalised URL always starts with a scheme, and normalising twice
    changes nothing more. *)
Theorem normalize_url_has_scheme (url : string) :
  (startswith (normalize_url url) "http://"
   || startswith (normalize_url url) "https://")%bool = true
  /\ normalize_url (normalize_url url) = normalize_url url.
Proof.
  assert (H : (startswith (normalize_url url) "http://"
               || startswith (normalize_url url) "https://")%bool = true).
  { unfold normalize_url.
    destruct (startswith url "http://" || startswith url "https://")%bool eqn:E.
    - exact E.
    - rewrite (startswith_app "https://" url). apply orb_true_r. }
  split; [exact H|].
  unfold normalize_url at 1. now rewrite H.
Qed.

Section RetryLoop.

Variables (self : BacklinksVerifier) (net : Network).
Variables (url : string) (max_retries : Z).

Lemma fetch_from_raise (k : Z) (msg : string) :
  0 <= k < max_retries ->
  fetch_attempt self url max_retries k (net url k) = Raise msg ->
  fetch_from self net url max_retries k = Raised msg.
Proof.
  intros Hk Hr. unfold fetch_from.
  replace (Z.to_nat (max_retries - k)) with (S (Z.to_nat (max_retries - (k + 1))))
    by lia.
  simpl. now rewrite Hr.
Qed.

(** The last attempt never asks for another one. *)
Lemma last_attempt_decides (ev : Attempt) :
  fetch_attempt self url max_retries (max_retries - 1) ev <> Continue.
Proof.
  unfold fetch_attempt, on_request_exception.
  rewrite Z.ltb_irrefl.
  destruct ev as [r | | msg resp | msg]; try discriminate.
  destruct (resp_status r =? 403).
  - destruct (forbidden_content r); discriminate.
  - destruct (resp_status r =? 429); [discriminate|].
    destruct (raise_for_status r); discriminate.
Qed.

(** Whatever the loop returns was returned by one of its attempts, unless no
    iteration was left. *)
Lemma fetch_loop_returned (remaining : nat) (k : Z) (o : FetchOutcome) :
  fetch_loop self net url max_retries remaining k = Returned o ->
  (exists j ev, fetch_attempt self url max_retries j ev = Return o)
  \/ o = FetchFail ("Failed after " ++ str_of_Z max_retries ++ " attempts") None url.
Proof.
  revert k; induction remaining as [|n IH]; intros k; simpl.
  - intros H. injection H as <-. now right.
  - destruct (fetch_attempt self url max_retries k (net url k)) eqn:E.
    + apply IH.
    + intros H. injection H as ->. left. eauto.
    + discriminate.
Qed.

End RetryLoop.

Section AttemptCases.

Variables (self : BacklinksVerifier) (url : string) (max_retries k : Z).

Lemma fetch_attempt_ok (ev : Attempt)
      (text html final_url : string) (sc : Z) (warn : option string) :
  fetch_attempt self url max_retries k ev
  = Return (FetchOk text html sc final_url warn) ->
  (sc = 403 /\ warn = Some "403 Forbidden but content was accessible"
   /\ html = text /\ 100 < len text)
  \/ (warn = None /\ ~ 400 <= sc < 600).
Proof.
  assert (Hexc : forall msg resp,
             on_request_exception url max_retries k msg resp
             <> Return (FetchOk text html sc final_url warn)).
  { intros msg resp. unfold on_request_exception.
    destruct (k <? max_retries - 1); discriminate. }
  destruct ev as [r | | msg resp | msg]; simpl.
  - destruct (resp_status r =? 403).
    + destruct (forbidden_content r) as [o|] eqn:E.
      * intros H. injection H as ->. unfold forbidden_content in E.
        destruct (truthy (resp_content r)); [|discriminate E].
        destruct (response_text r) as [body|]; [|discriminate E].
        destruct (100 <? len (lower body)) eqn:L; [|discriminate E].
        injection E as <- <- <- _ <-. left. apply Z.ltb_lt in L. auto.
      * destruct (k <? max_retries - 1); discriminate.
    + destruct (resp_status r =? 429).
      * destruct (k <? max_retries - 1); discriminate.
      * destruct (raise_for_status r) as [msg|] eqn:E.
        -- intros H. now apply Hexc in H.
        -- intros H. injection H as _ _ <- _ <-. right. split; [reflexivity|].
           unfold raise_for_status in E.
           destruct (400 <=? resp_status r) eqn:A, (resp_status r <? 500) eqn:B,
             (500 <=? resp_status r) eqn:C, (resp_status r <? 600) eqn:D;
             simpl in E; try discriminate E; lia.
  - destruct (k <? max_retries - 1); discriminate.
  - intros H. now apply Hexc in H.
  - discriminate.
Qed.

Lemma fetch_attempt_fail (ev : Attempt) (e : string) (sc : option Z) (u : string) :
  fetch_attempt self url max_retries k ev = Return (FetchFail e sc u) ->
  u = url
  /\ ((sc = Some 403 /\ e = "403 Forbidden - Access denied")
      \/ (sc = Some 429 /\ e = "429 Too Many Requests - Rate limited")
      \/ sc = None
      \/ exists s, sc = Some s /\ ~ 400 <= s < 600).
Proof.
  assert (Hexc : forall msg resp,
             on_request_exception url max_retries k msg resp
             = Return (FetchFail e sc u) ->
             u = url /\ (sc = None \/ exists s, sc = Some s /\ ~ 400 <= s < 600)).
  { intros msg resp. unfold on_request_exception.
    destruct (k <? max_retries - 1); [discriminate|].
    intros H. injection H as _ <- <-. split; [reflexivity|].
    destruct resp as [r|]; [|now left].
    unfold resp_ok. destruct (400 <=? resp_status r) eqn:A,
      (resp_status r <? 600) eqn:B; simpl; auto; right; eexists;
      (split; [reflexivity | lia]). }
  destruct ev as [r | | msg resp | msg]; simpl.
  - destruct (resp_status r =? 403).
    + destruct (forbidden_content r) as [o|] eqn:E.
      * intros H. injection H as ->. unfold forbidden_content in E.
        destruct (truthy (resp_content r)); [|discriminate E].
        destruct (response_text r) as [body|]; [|discriminate E].
        destruct (100 <? len (lower body)); discriminate E.
      * destruct (k <? max_retries - 1); [discriminate|].
        intros H. injection H as <- <- <-. auto.
    + destruct (resp_status r =? 429).
      * destruct (k <? max_retries - 1); [discriminate|].
        intros H. injection H as <- <- <-. auto.
      * destruct (raise_for_status r) as [msg|].
        -- intros H. destruct (Hexc _ _ H) as [-> Hs]. tauto.
        -- discriminate.
  - destruct (k <? max_retries - 1); [discriminate|].
    intros H. injection H as _ <- <-. auto.
  - intros H. destruct (Hexc _ _ H) as [-> Hs]. tauto.
  - discriminate.
Qed.

End AttemptCases.

(** X9. What a successful fetch hands to the match: lower-cased text and
    markup, and either a 403 soft block (status 403, the warning, markup
    equal to the text, more than 100 characters) or a page without warning
    whose status is not an HTTP error. *)
Theorem fetched_page_invariant
        (self : BacklinksVerifier) (net : Network) (url : string) (max_retries : Z)
        (text html final_url : string) (sc : Z) (warn : option string) :
  fetch_page_content self net url max_retries
  = Returned (FetchOk text html sc final_url warn) ->
  lower text = text /\ lower html = html
  /\ ((sc = 403 /\ warn = Some "403 Forbidden but content was accessible"
       /\ html = text /\ 100 < len text)
      \/ (warn = None /\ ~ 400 <= sc < 600)).
Proof.
  intros H.
  destruct (fetch_page_content_lowercased _ _ _ _ _ _ _ _ _ H) as [Ht Hh].
  split; [exact Ht|]. split; [exact Hh|].
  apply fetch_loop_returned in H as [[j [ev Hj]] | H]; [|discriminate H].
  exact (fetch_attempt_ok _ _ _ _ _ _ _ _ _ _ Hj).
Qed.

Lemma fetched_page_invariant_witness :
  fetch_page_content default_verifier (always (ok_page "Visit WWW.Example.com"))
                     "a.test" 3
  = Returned (FetchOk "visit www.example.com" "visit www.example.com" 200
                      "https://a.test/" None)
  /\ lower "visit www.example.com" = "visit www.example.com".
Proof.
  split; [reflexivity|].
  apply (fetched_page_invariant default_verifier
           (always (ok_page "Visit WWW.Example.com")) "a.test" 3
           "visit www.example.com" "visit www.example.com" "https://a.test/" 200 None).
  reflexivity.
Defined.

(** X10. What a failed fetch reports: the URL is the normalised request URL,
    and the status code is 403 or 429 with their fixed messages, or absent,
    or one that is not an HTTP error.  The code of any other 4xx or 5xx
    answer is never reported. *)
Theorem failed_fetch_invariant
        (self : BacklinksVerifier) (net : Network) (url : string) (max_retries : Z)
        (e : string) (sc : option Z) (u : string) :
  fetch_page_content self net url max_retries = Returned (FetchFail e sc u) ->
  u = normalize_url url
  /\ ((sc = Some 403 /\ e = "403 Forbidden - Access denied")
      \/ (sc = Some 429 /\ e = "429 Too Many Requests - Rate limited")
      \/ sc = None
      \/ exists s, sc = Some s /\ ~ 400 <= s < 600).
Proof.
  intros H.
  apply fetch_loop_returned in H as [[j [ev Hj]] | H].
  - exact (fetch_attempt_fail _ _ _ _ _ _ _ _ Hj).
  - injection H as _ <- <-. auto.
Qed.

Lemma failed_fetch_invariant_witness :
  fetch_page_content default_verifier
    (always (mkResponse 404 "gone" (Some "gone") "https://a.test/x" "Not Found"
                        "gone" "gone"))
    "a.test/x" 3
  = Returned (FetchFail "404 Client Error: Not Found for url: https://a.test/x"
                        None "https://a.test/x")
  /\ "https://a.test/x" = normalize_url "a.test/x".
Proof.
  split; [reflexivity|].
  apply (failed_fetch_invariant default_verifier
           (always (mkResponse 404 "gone" (Some "gone") "https://a.test/x"
                               "Not Found" "gone" "gone"))
           "a.test/x" 3
           "404 Client Error: Not Found for url: https://a.test/x" None
           "https://a.test/x").
  reflexivity.
Defined.

Section Decided.

Variables (self : BacklinksVerifier) (net : Network).
Variables (url : string) (max_retries : Z).

(** After [j] attempts the loop has either been decided by one of them or
    retried them all. *)
Lemma decided_or_retried (j : Z) :
  0 <= j <= max_retries ->
  retried_until self net url max_retries j
  \/ exists k, 0 <= k < j
               /\ retried_until self net url max_retries k
               /\ fetch_attempt self url max_retries k (net url k) <> Continue.
Proof.
  intros [Hj0 Hj]. revert Hj. pattern j. apply natlike_ind; [| |exact Hj0].
  - intros _. left. intros i Hi. lia.
  - intros x Hx IH Hle. unfold Z.succ in *. destruct IH as [IH | [k [Hk Hd]]]; [lia| |].
    + destruct (fetch_attempt self url max_retries x (net url x)) eqn:E.
      * left. intros i Hi.
        destruct (Z.eq_dec i x) as [-> | Hne]; [exact E | apply IH; lia].
      * right. exists x. split; [lia|]. split; [exact IH|]. congruence.
      * right. exists x. split; [lia|]. split; [exact IH|]. congruence.
    + right. exists k. split; [lia | exact Hd].
Qed.

End Decided.

(** X11. The fetch is decided by one of its first [max_retries] attempts:
    with at least one attempt allowed, some attempt [k < max_retries] returns
    or raises after all earlier ones were retried, so the closing
    "Failed after N attempts" failure is only produced when no attempt is
    allowed at all. *)
Theorem fetch_decided_within_retries
        (self : BacklinksVerifier) (net : Network) (url : string) (max_retries : Z) :
  (max_retries <= 0 ->
   fetch_page_content self net url max_retries
   = Returned (FetchFail ("Failed after " ++ str_of_Z max_retries ++ " attempts")
                         None (normalize_url url)))
  /\ (1 <= max_retries ->
      exists k, 0 <= k < max_retries
        /\ retried_until self net (normalize_url url) max_retries k
        /\ ((exists o,
                fetch_attempt self (normalize_url url) max_retries k
                              (net (normalize_url url) k) = Return o
                /\ fetch_page_content self net url max_retries = Returned o)
            \/ (exists msg,
                   fetch_attempt self (normalize_url url) max_retries k
                                 (net (normalize_url url) k) = Raise msg
                   /\ fetch_page_content self net url max_retries = Raised msg))).
Proof.
  split.
  - intros H. unfold fetch_page_content.
    replace (Z.to_nat max_retries) with O by lia. reflexivity.
  - intros H.
    destruct (decided_or_retried self net (normalize_url url) max_retries max_retries)
      as [Hall | [k [Hk [Hret Hd]]]]; [lia| |].
    + exfalso.
      apply (last_attempt_decides self (normalize_url url) max_retries
               (net (normalize_url url) (max_retries - 1))).
      apply Hall. lia.
    + exists k. split; [exact Hk|]. split; [exact Hret|].
      rewrite (fetch_reaches self net url max_retries k); [|lia|exact Hret].
      destruct (fetch_attempt self (normalize_url url) max_retries k
                              (net (normalize_url url) k)) as [|o|msg] eqn:E.
      * congruence.
      * left. exists o. split; [reflexivity|]. now apply fetch_from_return.
      * right. exists msg. split; [reflexivity|]. now apply fetch_from_raise.
Qed.

Lemma fetch_decided_within_retries_witness :
  fetch_page_content default_verifier always_timeout "a.test" 0
  = Returned (FetchFail "Failed after 0 attempts" None "https://a.test")
  /\ exists k, 0 <= k < 3
       /\ retried_until default_verifier always_timeout (normalize_url "a.test") 3 k
       /\ ((exists o,
               fetch_attempt default_verifier (normalize_url "a.test") 3 k
                             (always_timeout (normalize_url "a.test") k) = Return o
               /\ fetch_page_content default_verifier always_timeout "a.test" 3
                  = Returned o)
           \/ (exists msg,
                  fetch_attempt default_verifier (normalize_url "a.test") 3 k
                                (always_timeout (normalize_url "a.test") k) = Raise msg
                  /\ fetch_page_content default_verifier always_timeout "a.test" 3
                     = Raised msg)).
Proof.
  split.
  - apply (proj1 (fetch_decided_within_retries default_verifier always_timeout
                    "a.test" 0)). lia.
  - apply (proj2 (fetch_decided_within_retries default_verifier always_timeout
                    "a.test" 3)). lia.
Defined.

(** X12. A 429 answer is never usable, whatever its body: the attempt is
    retried while attempts remain, and after the last attempt the fetch fails
    with status 429 and the message "429 Too Many Requests - Rate limited". *)
Theorem rate_limited_response
        (self : BacklinksVerifier) (net : Network) (url : string)
        (max_retries k : Z) (r : Response) :
  0 <= k < max_retries ->
  retried_until self net (normalize_url url) max_retries k ->
  net (normalize_url url) k = Responded r ->
  resp_status r = 429 ->
  (k < max_retries - 1 ->
   fetch_page_content self net url max_retries
   = fetch_from self net (normalize_url url) max_retries (k + 1))
  /\ (k = max_retries - 1 ->
      fetch_page_content self net url max_retries
      = Returned (FetchFail "429 Too Many Requests - Rate limited" (Some 429)
                            (normalize_url url))).
Proof.
  intros Hk Hret Hnet Hst.
  rewrite (fetch_reaches self net url max_retries k); [|lia|exact Hret].
  assert (Hstep : fetch_attempt self (normalize_url url) max_retries k
                    (net (normalize_url url) k)
                  = if k <? max_retries - 1 then Continue
                    else Return (FetchFail "429 Too Many Requests - Rate limited"
                                           (Some 429) (normalize_url url))).
  { rewrite Hnet. unfold fetch_attempt. rewrite Hst. reflexivity. }
  split.
  - intros Hlt. apply fetch_from_step; [exact Hk|].
    rewrite Hstep. apply Z.ltb_lt in Hlt. now rewrite Hlt.
  - intros Heq. apply fetch_from_return; [exact Hk|].
    rewrite Hstep. replace (k <? max_retries - 1) with false; [reflexivity|].
    symmetry. apply Z.ltb_ge. lia.
Qed.

Lemma rate_limited_response_witness :
  fetch_page_content default_verifier (always (status_page 429 "Too Many Requests"))
                     "a.test/x" 3
  = Returned (FetchFail "429 Too Many Requests - Rate limited" (Some 429)
                        "https://a.test/x").
Proof.
  refine (proj2 (rate_limited_response default_verifier
                   (always (status_page 429 "Too Many Requests")) "a.test/x" 3 2
                   (status_page 429 "Too Many Requests") _ _ _ _) _).
  - lia.
  - intros i Hi. assert (i = 0 \/ i = 1) as [-> | ->] by lia; reflexivity.
  - reflexivity.
  - reflexivity.
  - reflexivity.
Defined.

Section Transient.

Variables (self : BacklinksVerifier) (url : string) (max_retries k : Z).

Lemma transient_continue (ev : Attempt) :
  k < max_retries - 1 -> transient ev ->
  fetch_attempt self url max_retries k ev = Continue.
Proof.
  intros Hk. apply Z.ltb_lt in Hk.
  intros [-> | [[msg [resp ->]] | [r [-> [H403 Herr]]]]]; simpl;
    unfold on_request_exception; rewrite ?Hk; try reflexivity.
  apply Z.eqb_neq in H403. rewrite H403.
  destruct (resp_status r =? 429); [reflexivity|].
  unfold raise_for_status.
  destruct (400 <=? resp_status r) eqn:A, (resp_status r <? 500) eqn:B,
    (500 <=? resp_status r) eqn:C, (resp_status r <? 600) eqn:D; simpl;
    rewrite ?Hk; try reflexivity; lia.
Qed.

End Transient.

(** X13. Timeouts, request exceptions and HTTP error answers other than 403
    are retried silently: while an attempt is left the loop goes on, so with
    [n] such failures in a row followed by an answer, the result is that of
    the answer alone. *)
Theorem transient_failures_are_retried
        (self : BacklinksVerifier) (net : Network) (url : string)
        (max_retries k : Z) :
  0 <= k < max_retries ->
  (forall i, 0 <= i < k -> transient (net (normalize_url url) i)) ->
  retried_until self net (normalize_url url) max_retries k
  /\ fetch_page_content self net url max_retries
     = fetch_from self net (normalize_url url) max_retries k.
Proof.
  intros Hk Htr.
  assert (Hret : retried_until self net (normalize_url url) max_retries k).
  { intros i Hi. apply transient_continue; [lia | apply Htr; lia]. }
  split; [exact Hret|]. apply fetch_reaches; [lia | exact Hret].
Qed.

Lemma transient_failures_are_retried_witness :
  fetch_page_content default_verifier
    (fun _ i => if i <? 2 then TimedOut else Responded (ok_page "Hello"))
    "a.test" 3
  = fetch_from default_verifier
      (fun _ i => if i <? 2 then TimedOut else Responded (ok_page "Hello"))
      (normalize_url "a.test") 3 2
  /\ fetch_page_content default_verifier
       (fun _ i => if i <? 2 then TimedOut else Responded (ok_page "Hello"))
       "a.test" 3
     = Returned (FetchOk "hello" "hello" 200 "https://a.test/" None).
Proof.
  split; [|reflexivity].
  apply (transient_failures_are_retried default_verifier
           (fun _ i => if i <? 2 then TimedOut else Responded (ok_page "Hello"))
           "a.test" 3 2).
  - lia.
  - intros i Hi. left. assert (i = 0 \/ i = 1) as [-> | ->] by lia; reflexivity.
Defined.

(** X14. When the last attempt fails, its failure is what the fetch returns:
    a timeout gives "Request timeout after T seconds" with the configured
    timeout and no status code; an HTTP error answer other than 403 and 429
    gives the message of [raise_for_status] and no status code either. *)
Theorem last_attempt_failure
        (self : BacklinksVerifier) (net : Network) (url : string) (max_retries : Z) :
  1 <= max_retries ->
  retried_until self net (normalize_url url) max_retries (max_retries - 1) ->
  (net (normalize_url url) (max_retries - 1) = TimedOut ->
   fetch_page_content self net url max_retries
   = Returned (FetchFail ("Request timeout after " ++ str_of_Z (timeout self)
                          ++ " seconds") None (normalize_url url)))
  /\ (forall r msg,
         net (normalize_url url) (max_retries - 1) = Responded r ->
         resp_status r <> 403 -> resp_status r <> 429 ->
         raise_for_status r = Some msg ->
         fetch_page_content self net url max_retries
         = Returned (FetchFail msg None (normalize_url url))).
Proof.
  intros Hm Hret.
  rewrite (fetch_reaches self net url max_retries (max_retries - 1)); [|lia|exact Hret].
  split.
  - intros Hnet. apply fetch_from_return; [lia|].
    rewrite Hnet. simpl. now rewrite Z.ltb_irrefl.
  - intros r msg Hnet H403 H429 Hmsg. apply fetch_from_return; [lia|].
    rewrite Hnet. simpl.
    apply Z.eqb_neq in H403, H429. rewrite H403, H429, Hmsg.
    unfold on_request_exception. rewrite Z.ltb_irrefl.
    assert (Hok : resp_ok r = false).
    { unfold resp_ok, raise_for_status in *.
      destruct (400 <=? resp_status r) eqn:A, (resp_status r <? 500) eqn:B,
        (500 <=? resp_status r) eqn:C, (resp_status r <? 600) eqn:D;
        simpl in *; try discriminate Hmsg; try reflexivity; lia. }
    now rewrite Hok.
Qed.

Lemma last_attempt_failure_witness :
  fetch_page_content default_verifier always_timeout "a.test" 3
  = Returned (FetchFail "Request timeout after 10 seconds" None "https://a.test")
  /\ fetch_page_content default_verifier
       (always (status_page 500 "Internal Server Error")) "a.test/x" 3
     = Returned (FetchFail
                   "500 Server Error: Internal Server Error for url: https://a.test/x"
                   None "https://a.test/x").
Proof.
  split.
  - refine (proj1 (last_attempt_failure default_verifier always_timeout "a.test" 3
                     _ _) _).
    + lia.
    + intros i Hi. assert (i = 0 \/ i = 1) as [-> | ->] by lia; reflexivity.
    + reflexivity.
  - refine (proj2 (last_attempt_failure default_verifier
                     (always (status_page 500 "Internal Server Error")) "a.test/x" 3
                     _ _)
              (status_page 500 "Internal Server Error")
              "500 Server Error: Internal Server Error for url: https://a.test/x"
              _ _ _ _).
    + lia.
    + intros i Hi. assert (i = 0 \/ i = 1) as [-> | ->] by lia; reflexivity.
    + reflexivity.
    + discriminate.
    + discriminate.
    + reflexivity.
Defined.

(** X15. A 403 soft block is searchable: when the first answer is a 403 whose
    text has more than 100 characters and contains the lower-cased term, the
    case-insensitive check is verified in the page text with the lower-cased
    term as matched variation, and the result keeps status 403 and the
    warning. *)
Theorem soft_block_is_searchable
        (self : BacklinksVerifier) (net : Network) (url search_term : string)
        (search_in_html : bool) (r : Response) (body : string) :
  net (normalize_url url) 0 = Responded r ->
  resp_status r = 403 ->
  response_text r = Some body ->
  100 < len body ->
  str_in (lower search_term) (lower body) = true ->
  exists res,
    verify_backlink self net url search_term search_in_html false = Returned res
    /\ verified res = true
    /\ found_in res = Some "Page Text"
    /\ found_variation res = Some (lower search_term)
    /\ status_code res = Some 403
    /\ warning res = Some "403 Forbidden but content was accessible"
    /\ error res = None.
Proof.
  intros Hnet Hst Ht Hl Hin.
  assert (Hf : fetch_page_content self net url 3
               = Returned (FetchOk (lower body) (lower body) 403 (resp_url r)
                             (Some "403 Forbidden but content was accessible"))).
  { rewrite (fetch_reaches self net url 3 0); [|lia|intros i Hi; lia].
    apply fetch_from_return; [lia|].
    rewrite Hnet. unfold fetch_attempt. rewrite Hst. simpl.
    now rewrite (forbidden_content_long r body Ht Hl). }
  pose proof (search_variations_head search_term false) as Hh.
  destruct (search_variations search_term false) as [|v rest] eqn:Ev;
    [discriminate Hh|]. simpl in Hh. injection Hh as ->.
  unfold verify_backlink. rewrite Hf. eexists. split; [reflexivity|].
  rewrite verify_fetched_ok. unfold run_search.
  pose proof (scan_text_first [] rest (lower search_term) (lower body) scan_init
                (Forall_nil _) Hin) as Hs.
  cbn [app] in Hs. rewrite Ev, Hs.
  rewrite later_steps_keep_text by reflexivity.
  unfold result_of_scan. cbn [verified found_in found_variation status_code
                               warning error found_in_text found_in_html
                               cur_variation orb].
  repeat split.
Qed.

Lemma soft_block_is_searchable_witness :
  exists res,
    verify_backlink default_verifier (always forbidden_long) "host.test/a"
                    "Example.com" true false = Returned res
    /\ verified res = true
    /\ found_in res = Some "Page Text"
    /\ found_variation res = Some (lower "Example.com")
    /\ status_code res = Some 403
    /\ warning res = Some "403 Forbidden but content was accessible"
    /\ error res = None.
Proof.
  apply (soft_block_is_searchable default_verifier (always forbidden_long)
           "host.test/a" "Example.com" true forbidden_long
           "<html><body><p>Our partner Example.com is listed on this page of the directory, see www.example.com today</p></body></html>").
  - reflexivity.
  - reflexivity.
  - reflexivity.
  - vm_compute. reflexivity.
  - vm_compute. reflexivity.
Defined.

(** * Further properties of the batch orchestrator *)

Section Stripping.

Lemma rstrip_idempotent (s : string) : rstrip (rstrip s) = rstrip s.
Proof.
  induction s as [|a s IH]; [reflexivity|]. simpl.
  destruct (rstrip s) as [|b r] eqn:E.
  - destruct (is_space a) eqn:Ea; simpl; [reflexivity | now rewrite Ea].
  - simpl in *. now rewrite IH.
Qed.

Lemma lstrip_head (s : string) :
  lstrip s = EmptyString
  \/ exists a t, lstrip s = String a t /\ is_space a = false.
Proof.
  induction s as [|a s IH]; simpl; [now left|].
  destruct (is_space a) eqn:E; [exact IH|]. right. eauto.
Qed.

Lemma rstrip_keeps_head (a : ascii) (t : string) :
  is_space a = false -> exists r, rstrip (String a t) = String a r.
Proof.
  intros Ha. simpl. destruct (rstrip t); [rewrite Ha|]; eauto.
Qed.

Lemma strip_idempotent (s : string) : strip (strip s) = strip s.
Proof.
  unfold strip.
  destruct (lstrip_head s) as [-> | [a [t [-> Ha]]]]; [reflexivity|].
  destruct (rstrip_keeps_head a t Ha) as [r Hr].
  assert (Hl : lstrip (rstrip (String a t)) = rstrip (String a t)).
  { rewrite Hr. simpl. now rewrite Ha. }
  rewrite Hl. apply rstrip_idempotent.
Qed.

End Stripping.

Section BatchResults.

Variables (self : BacklinksVerifier) (net : Network).
Variables (search_term : string) (search_in_html case_sensitive : bool).

Lemma checked_backlink_well_formed (u : string) :
  nonblank u = true -> strip u = u ->
  well_formed_result search_term
    (checked_backlink self net search_term search_in_html case_sensitive u).
Proof.
  intros Hn Hs. unfold checked_backlink, verify_backlink.
  destruct (fetch_page_content self net u 3) as [[text html sc fu w | e sc fu] | msg].
  - rewrite verify_fetched_ok. unfold well_formed_result, result_of_scan; simpl.
    repeat split; auto; discriminate.
  - unfold well_formed_result; simpl. repeat split; auto; discriminate.
  - unfold well_formed_result, processing_error; simpl.
    repeat split; auto; discriminate.
Qed.

Lemma submitted_in (urls : list string) (u : string) :
  In u (submitted urls) -> nonblank u = true /\ strip u = u.
Proof.
  unfold submitted. rewrite in_map_iff. intros [x [<- Hx]].
  apply filter_In in Hx as [_ Hx].
  unfold nonblank. now rewrite strip_idempotent.
Qed.

Lemma as_completed_incl {A : Type} (order : list nat) (fs : list A) (x : A) :
  In x (as_completed order fs) -> In x fs.
Proof.
  unfold as_completed. rewrite in_flat_map. intros [i [_ Hi]].
  destruct (nth_error fs i) as [f|] eqn:E; [|contradiction].
  destruct Hi as [<- | []]. exact (nth_error_In _ _ E).
Qed.

(** Whatever the completion order, each result of a batch is the checked
    result of one of the submitted URLs. *)
Lemma batch_results_from_submitted (order : list nat) (urls : list string)
      (max_workers : Z) (use_browser_arg : bool) (results : list BacklinkResult) :
  verify_multiple_backlinks self net order urls search_term search_in_html
                            case_sensitive max_workers use_browser_arg
  = Returned results ->
  forall r, In r results ->
    exists u, In u (submitted urls)
      /\ r = checked_backlink self net search_term search_in_html case_sensitive u.
Proof.
  unfold verify_multiple_backlinks.
  destruct (use_browser_arg && negb (use_browser self))%bool; [discriminate|].
  destruct (Z.min _ 3 =? 1).
  - intros H. injection H as <-. rewrite sequential_loop_map. simpl.
    intros r Hr. apply in_map_iff in Hr as [u [<- Hu]]. eauto.
  - destruct (Z.min _ 3 <=? 0); [discriminate|].
    intros H. injection H as <-. rewrite completed_loop_map. simpl.
    intros r Hr. apply in_map_iff in Hr as [u [<- Hu]].
    apply as_completed_incl in Hu. eauto.
Qed.

End BatchResults.

Lemma submitted_blank (urls : list string) :
  Forall (fun u => nonblank u = false) urls -> submitted urls = [].
Proof.
  unfold submitted. induction 1 as [|u urls Hu _ IH]; [reflexivity|].
  simpl. unfold nonblank in Hu. rewrite Hu. exact IH.
Qed.

Lemma count_bounds {A : Type} (p : A -> bool) (xs : list A) :
  0 <= count p xs <= Z.of_nat (List.length xs).
Proof.
  unfold count. pose proof (filter_length_le p xs). lia.
Qed.

Lemma count_exclusive {A : Type} (p q : A -> bool) (xs : list A) :
  Forall (fun x => p x = true -> q x = false) xs ->
  count p xs + count q xs <= Z.of_nat (List.length xs).
Proof.
  unfold count. induction 1 as [|x xs Hx _ IH]; [simpl; lia|].
  cbn [List.filter]. destruct (p x) eqn:Ep.
  - rewrite (Hx eq_refl). cbn [List.length]. lia.
  - destruct (q x); cbn [List.length]; lia.
Qed.

(** X16. Every result of a batch is well formed: it echoes the search term
    and a stripped URL with text, a verified result carries no error, and a
    result with an error is unverified and reports no location, context,
    variation or warning.  Hence in the summary the verified and the error
    counts never add up to more than the total. *)
Theorem batch_results_well_formed
        (self : BacklinksVerifier) (net : Network) (order : list nat)
        (urls : list string) (search_term : string)
        (search_in_html case_sensitive : bool) (max_workers : Z)
        (use_browser_arg : bool) (results : list BacklinkResult) :
  verify_multiple_backlinks self net order urls search_term search_in_html
                            case_sensitive max_workers use_browser_arg
  = Returned results ->
  Forall (well_formed_result search_term) results
  /\ 0 <= verified_count (summarize results)
  /\ 0 <= error_count (summarize results)
  /\ verified_count (summarize results) + error_count (summarize results)
     <= total_urls (summarize results).
Proof.
  intros H.
  assert (Hwf : Forall (well_formed_result search_term) results).
  { apply Forall_forall. intros r Hr.
    destruct (batch_results_from_submitted _ _ _ _ _ _ _ _ _ _ H r Hr) as [u [Hu ->]].
    destruct (submitted_in _ _ Hu) as [Hn Hs].
    now apply checked_backlink_well_formed. }
  split; [exact Hwf|].
  unfold summarize; simpl. rewrite !sum_ones_count.
  split; [apply count_bounds|]. split; [apply count_bounds|].
  apply count_exclusive. apply (Forall_impl _ (P := well_formed_result search_term));
    [|exact Hwf].
  intros r [_ [_ [_ [Hv _]]]] Hr. now rewrite (Hv Hr).
Qed.

Lemma batch_results_well_formed_witness :
  exists results,
    verify_multiple_backlinks default_verifier sample_net [4; 0; 3; 1; 2]%nat
                              sample_urls "example.com" true false 2 false
    = Returned results
    /\ Forall (well_formed_result "example.com") results
    /\ verified_count (summarize results) + error_count (summarize results)
       <= total_urls (summarize results).
Proof.
  eexists. split; [vm_compute; reflexivity|].
  refine ((fun H => conj (proj1 H) (proj2 (proj2 (proj2 H))))
            (batch_results_well_formed default_verifier sample_net [4; 0; 3; 1; 2]%nat
               sample_urls "example.com" true false 2 false _ _)).
  vm_compute. reflexivity.
Defined.

(** X18. A list with nothing but blank entries gives an empty batch, whose
    summary is all zeros with the integer 0 as rate; no URL is fetched. *)
Theorem blank_urls_give_empty_batch
        (self : BacklinksVerifier) (net : Network) (order : list nat)
        (urls : list string) (search_term : string)
        (search_in_html case_sensitive : bool) (max_workers : Z)
        (use_browser_arg : bool) (results : list BacklinkResult) :
  Forall (fun u => nonblank u = false) urls ->
  verify_multiple_backlinks self net order urls search_term search_in_html
                            case_sensitive max_workers use_browser_arg
  = Returned results ->
  results = [] /\ summarize results = mkSummary 0 0 0 (PyInt 0).
Proof.
  intros Hb H.
  pose proof (submitted_blank urls Hb) as Hs.
  assert (Hr : results = []).
  { destruct results as [|r rs]; [reflexivity|].
    destruct (batch_results_from_submitted _ _ _ _ _ _ _ _ _ _ H r (or_introl eq_refl))
      as [u [Hu _]].
    rewrite Hs in Hu. contradiction. }
  split; [exact Hr|]. now rewrite Hr.
Qed.

Lemma blank_urls_give_empty_batch_witness :
  Forall (fun u => nonblank u = false) [" "; EmptyString]
  /\ summarize [] = mkSummary 0 0 0 (PyInt 0).
Proof.
  split; [repeat constructor|].
  refine (proj2 (blank_urls_give_empty_batch default_verifier sample_net [] [" "; EmptyString]
                   "example.com" true false 3 false [] _ _)).
  - repeat constructor.
  - reflexivity.
Defined.

(** * Summary, request validation and the endpoints *)

Lemma same_float_eq (x y : spec_float) : same_float x y = true -> x = y.
Proof.
  destruct x as [s | s | | s m e], y as [s' | s' | | s' m' e']; simpl;
    try discriminate; try reflexivity.
  - intros H. apply Bool.eqb_prop in H. now subst.
  - intros H. apply Bool.eqb_prop in H. now subst.
  - intros H. apply andb_true_iff in H as [H He].
    apply andb_true_iff in H as [Hs Hm].
    apply Bool.eqb_prop in Hs. apply Pos.eqb_eq in Hm. apply Z.eqb_eq in He.
    now subst.
Qed.

Lemma same_number_eq (x y : PyNumber) : same_number x y = true -> x = y.
Proof.
  destruct x as [n | a], y as [n' | b]; simpl; try discriminate.
  - intros H. apply Z.eqb_eq in H. now subst.
  - intros H. apply same_float_eq in H. now subst.
Qed.

Lemma rate_agrees_row_spec (t : nat) (v : Z) :
  rate_agrees_row t = true -> 0 <= v <= Z.of_nat t ->
  rate v (Z.of_nat t) = spec_rate v (Z.of_nat t).
Proof.
  unfold rate_agrees_row. rewrite forallb_forall. intros H Hv.
  specialize (H (Z.to_nat v)). rewrite Z2Nat.id in H by lia.
  apply same_number_eq, H. apply in_seq. lia.
Qed.

Lemma rate_agrees_below_80 (v t : Z) :
  0 <= v <= t -> t < 80 -> rate v t = spec_rate v t.
Proof.
  intros Hv Ht.
  assert (Hall : List.forallb rate_agrees_row (List.seq 0 80) = true)
    by (vm_compute; reflexivity).
  rewrite forallb_forall in Hall.
  replace t with (Z.of_nat (Z.to_nat t)) by lia.
  apply rate_agrees_row_spec; [|lia].
  apply Hall. apply in_seq. lia.
Qed.

Lemma rate_agrees_below_80_summary (results : list BacklinkResult) :
  (List.length results < 80)%nat ->
  success_rate (summarize results)
  = spec_rate (verified_count (summarize results)) (total_urls (summarize results)).
Proof.
  intros H. unfold summarize; simpl. rewrite sum_ones_count.
  apply rate_agrees_below_80; [|lia].
  pose proof (count_bounds verified results). lia.
Qed.

(** X19. For a batch of fewer than 80 results the success rate computed by
    the code is exactly the specification's [round(100 * v / t, 1)]; 23 of 80
    is the first batch on which the two differ. *)
Theorem rate_matches_spec_below_80 (results : list BacklinkResult) :
  (List.length results < 80)%nat ->
  success_rate (summarize results)
  = spec_rate (verified_count (summarize results)) (total_urls (summarize results)).
Proof. apply rate_agrees_below_80_summary. Qed.

Lemma rate_matches_spec_below_80_witness :
  success_rate (summarize (List.repeat (sample_result true) 23
                           ++ List.repeat (sample_result false) 56))
  = spec_rate 23 79.
Proof.
  apply (rate_matches_spec_below_80
           (List.repeat (sample_result true) 23
            ++ List.repeat (sample_result false) 56)%list).
  vm_compute. lia.
Defined.



Section Validation.

Lemma submitted_fixed (urls : list string) :
  Forall (fun u => nonblank u = true /\ strip u = u) urls ->
  submitted urls = urls.
Proof.
  unfold submitted. induction 1 as [|u urls [Hn Hs] _ IH]; [reflexivity|].
  simpl. unfold nonblank in Hn. rewrite Hn. simpl. now rewrite Hs, IH.
Qed.

Lemma submitted_idempotent (urls : list string) :
  submitted (submitted urls) = submitted urls.
Proof.
  apply submitted_fixed, Forall_forall. intros u Hu. exact (submitted_in urls u Hu).
Qed.

Lemma validate_urls_submitted (v urls : list string) :
  validate_urls v = Returned urls -> v <> [] /\ urls = submitted v.
Proof.
  destruct v as [|x v]; simpl; [discriminate|].
  intros H. injection H as <-. split; [discriminate | reflexivity].
Qed.

End Validation.


Section BatchOrder.

Variables (self : BacklinksVerifier) (net : Network).
Variables (search_term : string) (search_in_html case_sensitive : bool).

(** The batch of a verifier that needs no browser set-up, on at least one
    worker, returns the checked results of the submitted URLs up to order. *)
Lemma batch_returns_permutation (order : list nat) (urls : list string)
      (max_workers : Z) (use_browser_arg : bool) :
  1 <= max_workers ->
  (use_browser_arg = true -> use_browser self = true) ->
  Permutation order (List.seq 0 (List.length (submitted urls))) ->
  exists results,
    verify_multiple_backlinks self net order urls search_term search_in_html
                              case_sensitive max_workers use_browser_arg
    = Returned results
    /\ Permutation results
         (List.map (checked_backlink self net search_term search_in_html
                                     case_sensitive) (submitted urls)).
Proof.
  intros Hw Hb Hperm. unfold verify_multiple_backlinks.
  destruct (use_browser_arg && negb (use_browser self))%bool eqn:Eb.
  { apply andb_true_iff in Eb as [E1 E2]. rewrite (Hb E1) in E2. discriminate E2. }
  destruct (Z.min (if use_browser self then 1 else max_workers) 3 =? 1) eqn:E1.
  - eexists. split; [reflexivity|]. rewrite sequential_loop_map. apply Permutation_refl.
  - assert (Hpos : (Z.min (if use_browser self then 1 else max_workers) 3 <=? 0) = false).
    { apply Z.leb_gt. destruct (use_browser self); lia. }
    rewrite Hpos. eexists. split; [reflexivity|].
    rewrite completed_loop_map. simpl.
    apply Permutation_map. now apply as_completed_permutation.
Qed.

End BatchOrder.

Lemma parse_request_valid (raw request : BacklinkRequest) :
  parse_request raw = Returned request ->
  req_urls request = submitted (req_urls raw)
  /\ submitted (req_urls request) = req_urls request
  /\ 1 <= req_max_workers request <= 10
  /\ 5 <= req_timeout request <= 30
  /\ req_search_term request = req_search_term raw
  /\ req_use_browser request = req_use_browser raw.
Proof.
  unfold parse_request, field_constraints.
  destruct (1 <=? Z.of_nat (List.length (req_urls raw))) eqn:A; [|discriminate].
  destruct (1 <=? len (req_search_term raw)) eqn:B; [|discriminate].
  destruct (5 <=? req_timeout raw) eqn:C; [|discriminate].
  destruct (req_timeout raw <=? 30) eqn:D; [|discriminate].
  destruct (1 <=? req_max_workers raw) eqn:E; [|discriminate].
  destruct (req_max_workers raw <=? 10) eqn:F; [|discriminate].
  simpl. destruct (validate_urls (req_urls raw)) as [urls|msg] eqn:V; [|discriminate].
  intros H. injection H as <-. simpl.
  apply validate_urls_submitted in V as [_ ->].
  apply Z.leb_le in C, D, E, F.
  split; [reflexivity|]. split; [apply submitted_idempotent|].
  repeat split; lia.
Qed.

(** X22. The synchronous endpoint refuses more than 10 URLs with status 400
    before anything is fetched.  For a validated request of at most 10 URLs
    it always answers "completed", never 500, with one result per URL and a
    summary whose success rate is exactly [round(100 * v / t, 1)]. *)
Theorem sync_endpoint_behaviour
        (net : Network) (order : list nat) (new_id : string) (now later : Z)
        (raw request : BacklinkRequest) :
  parse_request raw = Returned request ->
  Permutation order (List.seq 0 (List.length (req_urls request))) ->
  (10 < Z.of_nat (List.length (req_urls request)) ->
   verify_backlinks_sync net order new_id now later request
   = HttpError 400 "Synchronous verification limited to 10 URLs. Use async endpoint for larger batches.")
  /\ (Z.of_nat (List.length (req_urls request)) <= 10 ->
      exists results,
        verify_backlinks_sync net order new_id now later request
        = HttpOk (mkResponseBody new_id "completed" (Some results)
                                 (Some (summarize results)) None now (Some later))
        /\ Permutation (List.map url results) (req_urls request)
        /\ total_urls (summarize results)
           = Z.of_nat (List.length (req_urls request))
        /\ success_rate (summarize results)
           = spec_rate (verified_count (summarize results))
                       (total_urls (summarize results))).
Proof.
  intros Hp Hperm.
  destruct (parse_request_valid raw request Hp) as [_ [Hs [Hw _]]].
  unfold verify_backlinks_sync. split.
  - intros H. apply Z.ltb_lt in H. now rewrite H.
  - intros H. replace (10 <? _) with false by (symmetry; apply Z.ltb_ge; lia).
    destruct (batch_returns_permutation (verifier_of request) net
                (req_search_term request) (req_search_in_html request)
                (req_case_sensitive request) order (req_urls request)
                (req_max_workers request) (req_use_browser request))
      as [results [Hrun HP]]; [lia | auto | now rewrite Hs |].
    unfold run_request. rewrite Hrun. exists results. split; [reflexivity|].
    rewrite Hs in HP.
    assert (Hlen : List.length results = List.length (req_urls request)).
    { now rewrite (Permutation_length HP), length_map. }
    split; [|split].
    + rewrite (Permutation_map url HP), map_map.
      rewrite (map_ext _ (fun u => u)); [now rewrite map_id|].
      intros u. apply checked_backlink_url.
    + now rewrite summarize_total, Hlen.
    + apply rate_agrees_below_80_summary. lia.
Qed.


Lemma sync_endpoint_behaviour_witness :
  parse_request sample_request = Returned parsed_sample
  /\ exists results,
      verify_backlinks_sync sample_net [1; 0]%nat "job-1" 100 101 parsed_sample
      = HttpOk (mkResponseBody "job-1" "completed" (Some results)
                               (Some (summarize results)) None 100 (Some 101))
      /\ Permutation (List.map url results) (req_urls parsed_sample)
      /\ total_urls (summarize results)
         = Z.of_nat (List.length (req_urls parsed_sample))
      /\ success_rate (summarize results)
         = spec_rate (verified_count (summarize results))
                     (total_urls (summarize results)).
Proof.
  split; [reflexivity|].
  apply (proj2 (sync_endpoint_behaviour sample_net [1; 0]%nat "job-1" 100 101
                  sample_request parsed_sample eq_refl
                  (perm_swap 0%nat 1%nat []))).
  vm_compute. discriminate.
Defined.

Section Jobs.

Lemma store_set_same (store : JobStore) (key : string) (job : BacklinkResponse) :
  store_set store key job key = Some job.
Proof. unfold store_set. now rewrite String.eqb_refl. Qed.

Lemma store_set_other (store : JobStore) (key k : string) (job : BacklinkResponse) :
  k <> key -> store_set store key job k = store k.
Proof.
  intros H. unfold store_set. apply String.eqb_neq in H. now rewrite H.
Qed.

End Jobs.

(** X23. Processing a job touches that job only.  For an identifier that is
    not in the store the status endpoint answers 404 and the background task
    raises; otherwise the task ends with the job either "completed" or
    "error", its identifier and creation time kept and its completion time
    set, and every other job is left as it was. *)
Theorem job_processing_is_isolated
        (store : JobStore) (net : Network) (order : list nat) (now : Z)
        (id : string) (request : BacklinkRequest) :
  (store id = None ->
   get_job_status store id = HttpError 404 "Job not found"
   /\ process_backlinks store net order now id request = Raised ("'" ++ id ++ "'"))
  /\ (forall job,
         store id = Some job ->
         exists store' job',
           process_backlinks store net order now id request = Returned store'
           /\ get_job_status store' id = HttpOk job'
           /\ (forall k, k <> id -> store' k = store k)
           /\ job_id job' = job_id job
           /\ created_at job' = created_at job
           /\ completed_at job' = Some now
           /\ ((job_status job' = "completed"
                /\ exists results,
                    run_request net order request = Returned results
                    /\ job_results job' = Some results
                    /\ job_summary job' = Some (summarize results))
               \/ (job_status job' = "error"
                   /\ exists msg,
                       run_request net order request = Raised msg
                       /\ job_error job' = Some msg
                       /\ job_results job' = job_results job))).
Proof.
  unfold process_backlinks, get_job_status. split.
  - intros H. now rewrite H.
  - intros job H. rewrite H.
    destruct (run_request net order request) as [results | msg]; eexists; eexists;
      (split; [reflexivity|]); rewrite store_set_same;
      (split; [reflexivity|]);
      (split; [intros k Hk; now apply store_set_other|]); simpl;
      repeat split.
    + left. split; [reflexivity|]. exists results. auto.
    + right. split; [reflexivity|]. exists msg. auto.
Qed.

Lemma job_processing_is_isolated_witness :
  empty_store "job-9" = None
  /\ get_job_status empty_store "job-9" = HttpError 404 "Job not found"
  /\ process_backlinks empty_store sample_net [] 7 "job-9" parsed_sample
     = Raised "'job-9'".
Proof.
  split; [reflexivity|].
  apply (proj1 (job_processing_is_isolated empty_store sample_net [] 7 "job-9"
                  parsed_sample)).
  reflexivity.
Defined.

(** X24. The asynchronous round trip: a job created for a validated request
    is "pending" under its identifier; once processed it is "completed"
    there, with one result per URL, the summary of these results, no error,
    the creation time of the job and the completion time of the task. *)
Theorem async_round_trip
        (store : JobStore) (net : Network) (order : list nat)
        (new_id : string) (t0 t1 : Z) (raw request : BacklinkRequest) :
  parse_request raw = Returned request ->
  Permutation order (List.seq 0 (List.length (req_urls request))) ->
  get_job_status (fst (verify_backlinks_async store new_id t0)) new_id
  = HttpOk (mkResponseBody new_id "pending" None None None t0 None)
  /\ snd (verify_backlinks_async store new_id t0)
     = mkResponseBody new_id "pending" None None None t0 None
  /\ exists store' results,
      process_backlinks (fst (verify_backlinks_async store new_id t0)) net order
                        t1 new_id request = Returned store'
      /\ get_job_status store' new_id
         = HttpOk (mkResponseBody new_id "completed" (Some results)
                                  (Some (summarize results)) None t0 (Some t1))
      /\ Permutation (List.map url results) (req_urls request)
      /\ (forall k, k <> new_id -> store' k = store k).
Proof.
  intros Hp Hperm.
  destruct (parse_request_valid raw request Hp) as [_ [Hs [Hw _]]].
  unfold verify_backlinks_async, get_job_status, process_backlinks; simpl.
  rewrite store_set_same. split; [reflexivity|]. split; [reflexivity|].
  destruct (batch_returns_permutation (verifier_of request) net
              (req_search_term request) (req_search_in_html request)
              (req_case_sensitive request) order (req_urls request)
              (req_max_workers request) (req_use_browser request))
    as [results [Hrun HP]]; [lia | auto | now rewrite Hs |].
  unfold run_request. rewrite Hrun. eexists. exists results.
  split; [reflexivity|]. rewrite store_set_same. split; [reflexivity|]. split.
  - rewrite Hs in HP. rewrite (Permutation_map url HP), map_map.
    rewrite (map_ext _ (fun u => u)); [now rewrite map_id|].
    intros u. apply checked_backlink_url.
  - intros k Hk. now rewrite !store_set_other.
Qed.

Lemma async_round_trip_witness :
  parse_request sample_request = Returned parsed_sample
  /\ exists store' results,
      process_backlinks (fst (verify_backlinks_async empty_store "job-1" 100))
                        sample_net [1; 0]%nat 105 "job-1" parsed_sample
      = Returned store'
      /\ get_job_status store' "job-1"
         = HttpOk (mkResponseBody "job-1" "completed" (Some results)
                                  (Some (summarize results)) None 100 (Some 105))
      /\ Permutation (List.map url results) (req_urls parsed_sample)
      /\ (forall k, k <> "job-1" -> store' k = empty_store k).
Proof.
  split; [reflexivity|].
  apply (proj2 (proj2 (async_round_trip empty_store sample_net [1; 0]%nat "job-1"
                         100 105 sample_request parsed_sample eq_refl
                         (perm_swap 0%nat 1%nat [])))).
Defined.

(** * The streaming endpoint *)

Section Stream.

Variables (net : Network) (request : BacklinkRequest).

Lemma count_cons {A : Type} (p : A -> bool) (x : A) (xs : list A) :
  count p (x :: xs) = (if p x then 1 else 0) + count p xs.
Proof. unfold count. cbn [List.filter]. destruct (p x); cbn [List.length]; lia. Qed.

Lemma submitted_cons (url : string) (rest : list string) :
  submitted (url :: rest)
  = if truthy (strip url) then strip url :: submitted rest else submitted rest.
Proof. unfold submitted. simpl. now destruct (truthy (strip url)). Qed.

(** The loop, in closed form. *)
Lemma stream_loop_closed (check : string -> BacklinkResult) (urls : list string)
      (i : Z) (st : StreamState) :
  check = checked_backlink (verifier_of request) net (req_search_term request)
                           (req_search_in_html request) (req_case_sensitive request) ->
  stream_loop net request urls i st
  = mkStream
      (stream_results st ++ List.map check (submitted urls))
      (stream_verified st + count verified (List.map check (submitted urls)))
      (stream_errors st
       + count (fun r => truthy_opt (error r)) (List.map check (submitted urls)))
      (stream_events st
       ++ stream_body check (Z.of_nat (List.length (req_urls request))) urls i).
Proof.
  intros Hc. revert i st; induction urls as [|url rest IH]; intros i st.
  - destruct st; simpl. rewrite !app_nil_r. unfold count; simpl.
    now rewrite !Z.add_0_r.
  - cbn [stream_loop stream_body]. rewrite submitted_cons.
    destruct (truthy (strip url)) eqn:E; cbn [negb]; [|apply IH].
    assert (Hu : check (strip url)
                 = match verify_backlink (verifier_of request) net (strip url)
                           (req_search_term request) (req_search_in_html request)
                           (req_case_sensitive request) with
                   | Returned result => result
                   | Raised msg =>
                       mkResult (strip url) (req_search_term request) false
                                (Some ("Processing error: " ++ msg))
                                None None None None None
                   end).
    { rewrite Hc. reflexivity. }
    destruct (verify_backlink (verifier_of request) net (strip url)
                (req_search_term request) (req_search_in_html request)
                (req_case_sensitive request)) as [result | msg] eqn:V;
      rewrite IH; cbn [stream_results stream_verified stream_errors stream_events
                       List.map];
      rewrite !count_cons, Hu, <- !app_assoc; cbn [app]; f_equal;
      cbn [verified error truthy_opt].
    + destruct (verified result); lia.
    + destruct (truthy_opt (error result)); lia.
    + change (truthy ("Processing error: " ++ msg)) with true. cbv iota. lia.
Qed.

Lemma stream_loop_spec (urls : list string) (i : Z) (st : StreamState) :
  stream_loop net request urls i st
  = mkStream
      (stream_results st
       ++ List.map (checked_backlink (verifier_of request) net
                      (req_search_term request) (req_search_in_html request)
                      (req_case_sensitive request)) (submitted urls))
      (stream_verified st
       + count verified
           (List.map (checked_backlink (verifier_of request) net
                        (req_search_term request) (req_search_in_html request)
                        (req_case_sensitive request)) (submitted urls)))
      (stream_errors st
       + count (fun r => truthy_opt (error r))
           (List.map (checked_backlink (verifier_of request) net
                        (req_search_term request) (req_search_in_html request)
                        (req_case_sensitive request)) (submitted urls)))
      (stream_events st
       ++ stream_body (checked_backlink (verifier_of request) net
                         (req_search_term request) (req_search_in_html request)
                         (req_case_sensitive request))
            (Z.of_nat (List.length (req_urls request))) urls i).
Proof. now apply stream_loop_closed. Qed.

End Stream.

Lemma stream_events_body (net : Network) (request : BacklinkRequest) :
  generate_results net request
  = (StreamStarted (Z.of_nat (List.length (req_urls request)))
     :: stream_body (checked_backlink (verifier_of request) net
                       (req_search_term request) (req_search_in_html request)
                       (req_case_sensitive request))
          (Z.of_nat (List.length (req_urls request))) (req_urls request) 0
     ++ [StreamCompleted
           (mkSummary
              (Z.of_nat (List.length (req_urls request)))
              (count verified
                 (List.map (checked_backlink (verifier_of request) net
                              (req_search_term request) (req_search_in_html request)
                              (req_case_sensitive request))
                           (submitted (req_urls request))))
              (count (fun r => truthy_opt (error r))
                 (List.map (checked_backlink (verifier_of request) net
                              (req_search_term request) (req_search_in_html request)
                              (req_case_sensitive request))
                           (submitted (req_urls request))))
              (rate
                 (count verified
                    (List.map (checked_backlink (verifier_of request) net
                                 (req_search_term request)
                                 (req_search_in_html request)
                                 (req_case_sensitive request))
                              (submitted (req_urls request))))
                 (Z.of_nat (List.length (req_urls request)))))
           (List.map (checked_backlink (verifier_of request) net
                        (req_search_term request) (req_search_in_html request)
                        (req_case_sensitive request))
                     (submitted (req_urls request)))])%list.
Proof.
  unfold generate_results. rewrite stream_loop_spec. reflexivity.
Qed.

(** X25. The stream, event by event: it starts with the number of entries of
    the request, then yields for each entry that has text, in input order, a
    "processing" event and the result of that URL, both numbered by the
    1-based position of the entry, and ends with the results and a summary
    that counts the verified results, the results with a non-empty error, and
    as total every entry of the request, blank ones included. *)
Theorem stream_events_in_order (net : Network) (request : BacklinkRequest) :
  generate_results net request
  = (StreamStarted (Z.of_nat (List.length (req_urls request)))
     :: stream_body (checked_backlink (verifier_of request) net
                       (req_search_term request) (req_search_in_html request)
                       (req_case_sensitive request))
          (Z.of_nat (List.length (req_urls request))) (req_urls request) 0
     ++ [StreamCompleted
           (mkSummary
              (Z.of_nat (List.length (req_urls request)))
              (count verified
                 (List.map (checked_backlink (verifier_of request) net
                              (req_search_term request) (req_search_in_html request)
                              (req_case_sensitive request))
                           (submitted (req_urls request))))
              (count (fun r => truthy_opt (error r))
                 (List.map (checked_backlink (verifier_of request) net
                              (req_search_term request) (req_search_in_html request)
                              (req_case_sensitive request))
                           (submitted (req_urls request))))
              (rate
                 (count verified
                    (List.map (checked_backlink (verifier_of request) net
                                 (req_search_term request)
                                 (req_search_in_html request)
                                 (req_case_sensitive request))
                              (submitted (req_urls request))))
                 (Z.of_nat (List.length (req_urls request)))))
           (List.map (checked_backlink (verifier_of request) net
                        (req_search_term request) (req_search_in_html request)
                        (req_case_sensitive request))
                     (submitted (req_urls request)))])%list.
Proof. apply stream_events_body. Qed.

(** X26. For a validated request the stream ends with exactly what the
    batch computes sequentially: the same results in the same order and the
    same summary. *)
Theorem stream_agrees_with_sequential_batch
        (net : Network) (order : list nat) (raw request : BacklinkRequest) :
  parse_request raw = Returned request ->
  exists results,
    verify_multiple_backlinks (verifier_of request) net order (req_urls request)
      (req_search_term request) (req_search_in_html request)
      (req_case_sensitive request) 1 (req_use_browser request)
    = Returned results
    /\ List.last (generate_results net request) (StreamError EmptyString)
       = StreamCompleted (summarize results) results
    /\ List.length results = List.length (req_urls request).
Proof.
  intros Hp. destruct (parse_request_valid raw request Hp) as [_ [Hs _]].
  exists (List.map (checked_backlink (verifier_of request) net
                      (req_search_term request) (req_search_in_html request)
                      (req_case_sensitive request)) (submitted (req_urls request))).
  split.
  - unfold verify_multiple_backlinks, verifier_of. simpl.
    rewrite andb_negb_r. destruct (req_use_browser request); simpl;
      rewrite sequential_loop_map; reflexivity.
  - rewrite stream_events_body. split.
    + rewrite app_comm_cons, last_last. unfold summarize.
      rewrite !sum_ones_count, length_map. now rewrite Hs.
    + rewrite length_map. now rewrite Hs.
Qed.

Lemma stream_agrees_with_sequential_batch_witness :
  parse_request sample_request = Returned parsed_sample
  /\ exists results,
      verify_multiple_backlinks (verifier_of parsed_sample) sample_net []
        (req_urls parsed_sample) (req_search_term parsed_sample)
        (req_search_in_html parsed_sample) (req_case_sensitive parsed_sample) 1
        (req_use_browser parsed_sample)
      = Returned results
      /\ List.last (generate_results sample_net parsed_sample) (StreamError EmptyString)
         = StreamCompleted (summarize results) results
      /\ List.length results = List.length (req_urls parsed_sample).
Proof.
  split; [reflexivity|].
  apply (stream_agrees_with_sequential_batch sample_net [] sample_request
           parsed_sample).
  reflexivity.
Defined.

(** * The upload helper *)

Section Cleaning.

Lemma rstrip_of_strip (s : string) : rstrip (strip s) = strip s.
Proof. unfold strip. apply rstrip_idempotent. Qed.

Lemma app_not_empty (p t : string) : t <> EmptyString -> p ++ t <> EmptyString.
Proof. destruct p; simpl; [auto | discriminate]. Qed.

Lemma rstrip_app_fixed (p t : string) :
  rstrip t = t -> t <> EmptyString -> rstrip (p ++ t) = p ++ t.
Proof.
  intros Ht Hne. induction p as [|c p IH]; simpl; [exact Ht|].
  rewrite IH. pose proof (app_not_empty p t Hne) as H.
  destruct (p ++ t); [contradiction | reflexivity].
Qed.

Lemma truthy_not_empty (s : string) : truthy s = true -> s <> EmptyString.
Proof. destruct s; [discriminate | discriminate]. Qed.

Lemma strip_with_scheme (t : string) :
  strip t = t -> truthy t = true -> strip ("https://" ++ t) = "https://" ++ t.
Proof.
  intros Hs Ht. unfold strip.
  change (lstrip ("https://" ++ t)) with ("https://" ++ t).
  apply rstrip_app_fixed; [|now apply truthy_not_empty].
  rewrite <- Hs. apply rstrip_of_strip.
Qed.

Lemma clean_urls_clean (urls : list string) : Forall clean_url (clean_urls urls).
Proof.
  induction urls as [|x urls IH]; [constructor|]. cbn [clean_urls].
  destruct (truthy (strip x)
            && negb (existsb (String.eqb (lower (strip x))) null_words))%bool eqn:Ec;
    [|exact IH].
  apply andb_true_iff in Ec as [Et _].
  constructor; [|exact IH].
  destruct (negb (startswith (strip x) "http://" || startswith (strip x) "https://")
            && str_in "." (strip x))%bool eqn:Es.
  - unfold clean_url, nonblank.
    rewrite (strip_with_scheme (strip x) (strip_idempotent x) Et).
    split; [reflexivity|]. split; [reflexivity|]. left.
    rewrite (startswith_app "https://" (strip x)). apply orb_true_r.
  - unfold clean_url, nonblank. rewrite strip_idempotent, Et.
    split; [reflexivity|]. split; [reflexivity|].
    apply andb_false_iff in Es as [Es | Es]; [left | now right].
    now apply negb_false_iff in Es.
Qed.

Lemma prefer_submitted_first (cols : list string) (default : string) :
  (Forall (fun c => str_in "submitted" (lower c) = false) cols
   /\ prefer_submitted cols default = default)
  \/ exists pre post,
      cols = (pre ++ prefer_submitted cols default :: post)%list
      /\ Forall (fun c => str_in "submitted" (lower c) = false) pre
      /\ str_in "submitted" (lower (prefer_submitted cols default)) = true.
Proof.
  induction cols as [|c cols IH]; simpl; [left; auto|].
  destruct (str_in "submitted" (lower c)) eqn:E.
  - right. exists [], cols. auto.
  - destruct IH as [[Hall Hd] | [pre [post [Hc [Hpre Hs]]]]].
    + left. auto.
    + right. exists (c :: pre), post. simpl. rewrite <- Hc. auto.
Qed.

End Cleaning.

(** X27. Only a wrong file extension and the two pandas parse errors are
    answered with status 400.  A table without URL column, or whose URL
    column has no usable entry, is answered with status 500: the 400 raised
    for it inside the [try] block is caught by the generic handler. *)
Theorem upload_errors
        (filename : string) (contents : FileContents) (status : Z) (detail : string) :
  upload_file filename contents = HttpError status detail ->
  (status = 400
   /\ (allowed_extension filename = false
       \/ contents = EmptyData
       \/ exists msg, contents = ParserError msg))
  \/ (status = 500
      /\ allowed_extension filename = true
      /\ startswith detail "Error processing file: " = true
      /\ ((exists msg, contents = OtherError msg)
          \/ exists df,
              contents = Parsed df
              /\ (List.filter is_url_column (df_columns df) = []
                  \/ exists col, In col (df_columns df)
                                 /\ clean_urls (df_cells df col) = []))).
Proof.
  unfold upload_file. destruct (allowed_extension filename); cbn [negb].
  2:{ intros H. injection H as <- _. left. auto. }
  destruct contents as [df | | msg | msg].
  - destruct (List.filter is_url_column (df_columns df)) as [|c cs] eqn:Ec.
    + intros H. injection H as <- <-. right. repeat split.
      right. exists df. repeat split. now left.
    + set (col := prefer_submitted (c :: cs) c).
      destruct (clean_urls (df_cells df col)) as [|u us] eqn:Eu; [|discriminate].
      intros H. injection H as <- <-. right. repeat split.
      right. exists df. repeat split. right. exists col. split; [|exact Eu].
      assert (Hin : In col (c :: cs)).
      { destruct (prefer_submitted_first (c :: cs) c) as [[_ Hd] | [pre [post [Hc _]]]].
        - fold col in Hd. rewrite Hd. now left.
        - fold col in Hc. rewrite Hc. apply in_elt. }
      rewrite <- Ec in Hin. now apply filter_In in Hin.
  - intros H. injection H as <- _. left. auto.
  - intros H. injection H as <- _. left. eauto.
  - intros H. injection H as <- <-. right.
    split; [reflexivity|]. split; [reflexivity|].
    split; [exact (startswith_app "Error processing file: " msg)|]. left. eauto.
Qed.

Lemma upload_errors_witness :
  upload_file "links.csv" (Parsed (mkFrame ["name"; "notes"] (fun _ => [])))
  = HttpError 500
      "Error processing file: 400: No URL column found. Available columns: ['name', 'notes']. Expected column names: 'submitted url', 'url', 'website', 'link', etc."
  /\ (500 = 400 /\ (allowed_extension "links.csv" = false
                    \/ Parsed (mkFrame ["name"; "notes"] (fun _ => [])) = EmptyData
                    \/ exists msg, Parsed (mkFrame ["name"; "notes"] (fun _ => []))
                                   = ParserError msg)
      \/ 500 = 500).
Proof.
  split; [reflexivity|].
  destruct (upload_errors "links.csv"
              (Parsed (mkFrame ["name"; "notes"] (fun _ => []))) 500
              "Error processing file: 400: No URL column found. Available columns: ['name', 'notes']. Expected column names: 'submitted url', 'url', 'website', 'link', etc."
              eq_refl) as [H | [H _]].
  - left. exact H.
  - right. exact H.
Defined.

(** X28. A successful upload uses a column of the table whose name matches a
    URL keyword: the first one whose name contains "submitted" if there is
    one, otherwise the first match.  It returns at least one URL, counts
    them, and every returned URL has text, is stripped, and has a scheme
    unless it contains no dot. *)
Theorem upload_success
        (filename : string) (df : DataFrame) (resp : UploadResponse) :
  upload_file filename (Parsed df) = HttpOk resp ->
  In (up_column_used resp) (df_columns df)
  /\ is_url_column (up_column_used resp) = true
  /\ ((Forall (fun c => str_in "submitted" (lower c) = false)
              (List.filter is_url_column (df_columns df))
       /\ hd_error (List.filter is_url_column (df_columns df))
          = Some (up_column_used resp))
      \/ exists pre post,
          List.filter is_url_column (df_columns df)
          = (pre ++ up_column_used resp :: post)%list
          /\ Forall (fun c => str_in "submitted" (lower c) = false) pre
          /\ str_in "submitted" (lower (up_column_used resp)) = true)
  /\ up_urls resp = clean_urls (df_cells df (up_column_used resp))
  /\ up_urls resp <> []
  /\ up_total_count resp = Z.of_nat (List.length (up_urls resp))
  /\ Forall clean_url (up_urls resp)
  /\ up_available_columns resp = df_columns df.
Proof.
  unfold upload_file. destruct (allowed_extension filename); cbn [negb]; [|discriminate].
  destruct (List.filter is_url_column (df_columns df)) as [|c cs] eqn:Ec; [discriminate|].
  set (col := prefer_submitted (c :: cs) c).
  destruct (clean_urls (df_cells df col)) as [|u us] eqn:Eu; [discriminate|].
  intros H. injection H as <-. cbn [up_column_used up_urls up_total_count
                                    up_available_columns].
  assert (Hpref := prefer_submitted_first (c :: cs) c). fold col in Hpref.
  assert (Hin : In col (c :: cs)).
  { destruct Hpref as [[_ Hd] | [pre [post [Hc _]]]].
    - rewrite Hd. now left.
    - rewrite Hc. apply in_elt. }
  rewrite <- Ec in Hin. apply filter_In in Hin as [Hin Hcol].
  split; [exact Hin|]. split; [exact Hcol|]. split.
  - destruct Hpref as [[Hall Hd] | Hex]; [left | right; exact Hex].
    split; [exact Hall|]. now rewrite Hd.
  - split; [now rewrite Eu|]. split; [discriminate|]. split; [reflexivity|].
    split; [|reflexivity]. rewrite <- Eu. apply clean_urls_clean.
Qed.

Lemma upload_success_witness :
  upload_file "Links.XLSX" (Parsed sample_frame)
  = HttpOk (mkUpload "Successfully loaded 3 URLs from column ' Submitted URL '"
                     ["https://example.com/page"; "http://b.test"; "localhost"] 3
                     " Submitted URL " "Excel"
                     ["Notes"; "Website"; " Submitted URL "])
  /\ In " Submitted URL " (df_columns sample_frame).
Proof.
  split; [reflexivity|].
  apply (upload_success "Links.XLSX" sample_frame
           (mkUpload "Successfully loaded 3 URLs from column ' Submitted URL '"
                     ["https://example.com/page"; "http://b.test"; "localhost"] 3
                     " Submitted URL " "Excel"
                     ["Notes"; "Website"; " Submitted URL "])).
  reflexivity.
Defined.

(** X29. The URLs that an upload returns go through the rest of the service
    unchanged: request validation keeps the list as it is, and the fetcher
    requests each URL that has a scheme exactly as given. *)
Theorem uploaded_urls_pass_validation
        (filename : string) (df : DataFrame) (resp : UploadResponse) :
  upload_file filename (Parsed df) = HttpOk resp ->
  validate_urls (up_urls resp) = Returned (up_urls resp)
  /\ submitted (up_urls resp) = up_urls resp
  /\ Forall (fun u => str_in "." u = true -> normalize_url u = u) (up_urls resp).
Proof.
  unfold upload_file. destruct (allowed_extension filename); cbn [negb]; [|discriminate].
  destruct (List.filter is_url_column (df_columns df)) as [|c cs]; [discriminate|].
  set (col := prefer_submitted (c :: cs) c).
  destruct (clean_urls (df_cells df col)) as [|u us] eqn:Eu; [discriminate|].
  intros H. injection H as <-. cbn [up_urls].
  pose proof (clean_urls_clean (df_cells df col)) as Hc. rewrite Eu in Hc.
  assert (Hs : submitted (u :: us) = u :: us).
  { apply submitted_fixed. apply (Forall_impl _ (P := clean_url)); [|exact Hc].
    intros a [Hn [Hst _]]. auto. }
  split; [|split; [exact Hs|]].
  - unfold validate_urls. f_equal. exact Hs.
  - apply (Forall_impl _ (P := clean_url)); [|exact Hc].
    intros a [_ [_ [Hsch | Hdot]]] Ha.
    + unfold normalize_url. now rewrite Hsch.
    + congruence.
Qed.

Lemma uploaded_urls_pass_validation_witness :
  validate_urls ["https://example.com/page"; "http://b.test"; "localhost"]
  = Returned ["https://example.com/page"; "http://b.test"; "localhost"].
Proof.
  apply (proj1 (uploaded_urls_pass_validation "Links.XLSX" sample_frame
                  (mkUpload "Successfully loaded 3 URLs from column ' Submitted URL '"
                            ["https://example.com/page"; "http://b.test"; "localhost"]
                            3 " Submitted URL " "Excel"
                            ["Notes"; "Website"; " Submitted URL "])
                  eq_refl)).
Defined.

